(** * emotion_id/train.py: streamed validation, filewise evaluation and the
      training step loop

    A shallow embedding of [validate], [validate_filewise] and [train] from
    [src/emotion_id/train.py].  The neural models, the streaming data loaders,
    the optimiser and the metric kernels are collaborators living in other
    modules of the repository ([emotion_id.model], [dataloader.streaming],
    [util], ...); they enter the development as the fields of the class
    [Collaborators].  Everything [train.py] itself decides (loop bounds, the
    order of stash / forward / pop, which checkpoint is written when, what is
    raised) is written out as it is in the source. *)

From Equations Require Import Equations.
From Stdlib Require Import ZArith List Bool String Lia SpecFloat.
Import ListNotations.
Open Scope Z_scope.

Set Implicit Arguments.

(** ** Losses: IEEE binary64 *)

(** Python floats and the float64 arrays of numpy are binary64 numbers.  They
    are modelled with the Standard Library's specification of IEEE floats at
    precision 53 and maximal exponent 1024. *)
Module F64.

Definition prec : Z := 53.
Definition emax : Z := 1024.

Definition float : Type := spec_float.

(** [math.inf] *)
Definition inf : float := S754_infinity false.
Definition zero : float := S754_zero false.

Definition add (x y : float) : float := SFadd prec emax x y.
Definition div (x y : float) : float := SFdiv prec emax x y.

(** Python's [x < y] on floats: false as soon as one side is NaN. *)
Definition ltb (x y : float) : bool := SFltb x y.

Definition of_Z (n : Z) : float := binary_normalize prec emax n 0 false.


(** A number proper: neither NaN nor an infinity. *)
Definition is_finite (x : float) : bool :=
  match x with S754_zero _ | S754_finite _ _ _ => true | _ => false end.

(** [np.array(l).sum()] on a float64 array is not a sum from left to right:
    numpy's [add.reduce] starts from the identity [0.0] and adds to it what
    its [pairwise_sum] makes of the array.  Fewer than 8 elements are added
    from left to right, starting from [0.0].  From 8 to 128 elements, the
    first eight start eight accumulators, every further block of eight is
    added to them lane by lane, the accumulators are added up as
    [((r0 + r1) + (r2 + r3)) + ((r4 + r5) + (r6 + r7))], and the elements
    left over are added to that one by one.  Longer arrays are cut in two at
    [n / 2] rounded down to a multiple of 8, and the sums of the two parts
    are added.  (Versions of numpy that start from [-0.0] give the same sum
    unless every element is [-0.0].) *)
Fixpoint block_sum (r0 r1 r2 r3 r4 r5 r6 r7 : float) (a : list float) : float :=
  match a with
  | a0 :: a1 :: a2 :: a3 :: a4 :: a5 :: a6 :: a7 :: a =>
      block_sum (add r0 a0) (add r1 a1) (add r2 a2) (add r3 a3)
                (add r4 a4) (add r5 a5) (add r6 a6) (add r7 a7) a
  | _ =>
      fold_left add a
        (add (add (add r0 r1) (add r2 r3)) (add (add r4 r5) (add r6 r7)))
  end.

Definition small_sum (a : list float) : float :=
  match a with
  | a0 :: a1 :: a2 :: a3 :: a4 :: a5 :: a6 :: a7 :: a =>
      block_sum a0 a1 a2 a3 a4 a5 a6 a7 a
  | _ => fold_left add a zero
  end.

(** [n2 = n / 2; n2 -= n2 % 8] *)
Definition split_point (n : nat) : nat := (n / 2 - (n / 2) mod 8)%nat.
Arguments split_point : simpl never.

Equations? pairwise_sum (a : list float) : float by wf (List.length a) lt :=
  pairwise_sum a with le_lt_dec (List.length a) 128 := {
    | left _ := small_sum a
    | right _ :=
        add (pairwise_sum (firstn (split_point (List.length a)) a))
            (pairwise_sum (skipn (split_point (List.length a)) a)) }.
Proof.
  all: assert (Hb : (0 < split_point (List.length a) < List.length a)%nat)
    by (unfold split_point;
        assert (List.length a / 2 < List.length a)%nat
          by (apply Nat.div_lt; lia);
        assert (64 <= List.length a / 2)%nat
          by (apply Nat.div_le_lower_bound; lia);
        pose proof (Nat.mod_upper_bound (List.length a / 2) 8); lia).
  - rewrite length_firstn. lia.
  - rewrite length_skipn. lia.
Qed.

Definition np_sum (l : list float) : float := add zero (pairwise_sum l).

(** [np.array(l).mean()]: the sum divided by the number of elements.  On an
    empty array numpy divides [0.0] by [0], warns, and returns NaN. *)
Definition np_mean (l : list float) : float :=
  div (np_sum l) (of_Z (Z.of_nat (List.length l))).

End F64.

(** ** Exceptions *)

Inductive Error : Type :=
| NameError (msg : string)
| RuntimeError (msg : string)
| IndexError (msg : string)
| ValueError (msg : string).

Inductive Result (A : Type) : Type :=
| Ok (a : A)
| Raise (e : Error).
Arguments Ok {A} a.
Arguments Raise {A} e.

Definition bind {A B : Type} (m : Result A) (k : A -> Result B) : Result B :=
  match m with
  | Ok a => k a
  | Raise e => Raise e
  end.

Notation "x <- m ;; k" := (bind m (fun x => k))
  (at level 61, m at next level, right associativity).
Notation "' p <- m ;; k" := (bind m (fun x => match x with p => k end))
  (at level 61, p pattern, m at next level, right associativity).

Definition is_ok {A : Type} (r : Result A) : bool :=
  match r with Ok _ => true | Raise _ => false end.

(** A [for] loop over a list whose body may raise: the loop is left at the
    first exception, with the state as the body left it. *)
Fixpoint for_each {A S : Type} (body : S -> A -> S * option Error)
  (l : list A) (st : S) : S * option Error :=
  match l with
  | [] => (st, None)
  | x :: l =>
      match body st x with
      | (st, None) => for_each body l st
      | (st, Some err) => (st, Some err)
      end
  end.

(** ** The state protocol of a stateful model *)

(** Modelled from the spec: [stash_state], [pop_state] (section 4.2; the
    methods are defined with the models, outside [train.py]).  A model keeps
    its sequential state and a per-instance stack of stashed states;
    [stash_state] pushes the current state, [pop_state] restores the state
    stashed last and discards what accumulated since, and fails without a
    matching stash. *)
Record Stateful (S : Type) : Type := mkStateful {
  current : S;
  stashed : list S
}.

Definition stash_state {S : Type} (m : Stateful S) : Stateful S :=
  {| current := current m; stashed := current m :: stashed m |}.

Definition pop_state {S : Type} (m : Stateful S) : Result (Stateful S) :=
  match stashed m with
  | [] => Raise (IndexError "pop_state without stash_state")
  | s :: rest => Ok {| current := s; stashed := rest |}
  end.

Definition set_current {S : Type} (s : S) (m : Stateful S) : Stateful S :=
  {| current := s; stashed := stashed m |}.

(** [model.train()] / [model.eval()] *)
Inductive Mode : Type := TrainMode | EvalMode.

(** The calls made on the two models, in the order they are made: a log
    kept beside the models, which no call reads. *)
Inductive Call : Type :=
| ModelEval | ModelTrain
| CpcStash | ModelStash
| CpcForward | ModelForward
| CpcPop | ModelPop.

(** The architectures [FLAGS.model] selects among, by constructor call. *)
Inductive Arch : Type :=
| LinearEmotionIDModel
| BaselineEmotionIDModel
| MLPEmotionIDModel (no_layers : Z)
| ConvEmotionIDModel (no_layers : Z)
| RecurrentEmotionIDModel (bidirectional : bool)
| WaveNetEmotionIDModel (masked : bool).

(** ** Flags *)

(** The flags [train] reads.  An integer flag without a default is [None]
    until it is given. *)
Record Flags : Type := mkFlags {
  FLAGS_model : string;
  FLAGS_steps : Z;
  FLAGS_valid_steps : option Z;
  FLAGS_val_every : option Z;
  FLAGS_save_every : option Z;
  FLAGS_lr_schedule : bool;
  FLAGS_dry_run : bool
}.

(** ** Collaborators *)

(** What [train.py] calls and does not define.  The tensor kernels and the
    models are functions of their arguments, of the sequential state they
    carry and of the state of the random generators, which they hand back.
    The kernels are given as they compute on shapes that fit; where
    [train.py] can hand them shapes that do not, after the [if] of
    [validate_filewise], the refusal is written out with the call
    ([cross_entropy_fits], [check_consistent_length]).  A streaming loader is read through [next_batch]: the
    cursor stands for the loader as the next pull finds it, so that a [for]
    over a loader goes on from where the loader is. *)
Class Collaborators : Type := {
  Data : Type;        (* batch["data"] *)
  Labels : Type;      (* batch["labels"] *)
  Features : Type;    (* cpc(data) *)
  Logits : Type;      (* model(features), of shape [lanes, T, num_emotions] *)
  Rng : Type;         (* the state of the global random generators *)
  Cursor : Type;      (* the position of a streaming data loader *)
  CpcState : Type;    (* sequential state of the feature extractor *)
  SeqState : Type;    (* sequential state of the classifier *)
  Params : Type;      (* trainable parameters of the classifier *)
  OptState : Type;    (* RAdam and, with lr_schedule, FlatCA *)
  DblEntry : Type;    (* one manifest entry *)
  Score : Type;       (* accuracy_score / f1_score *)
  Figure : Type;      (* the confusion-matrix heat map *)

  (* the generators right after they are seeded with a constant *)
  seeded : Z -> Rng;
  (* next(iter(datastream)): None is StopIteration *)
  next_batch : Cursor -> Rng -> option (Data * Labels * Cursor * Rng);
  (* EmotionIDSingleFileStream over one entry: its windows, in order *)
  file_stream : DblEntry -> list (Data * Labels);
  cpc_forward : CpcState -> Rng -> Data -> Features * CpcState * Rng;
  model_forward :
    Mode -> Params -> SeqState -> Rng -> Features -> Logits * SeqState * Rng;
  (* pred.shape[1] *)
  shape1 : Logits -> Z;
  resample_1d : Labels -> Z -> Labels;
  (* F.cross_entropy(pred.reshape(-1, num_emotions), labels.reshape(-1)).item() *)
  cross_entropy : Logits -> Labels -> F64.float;
  (* logits.argmax(dim=2).squeeze(dim=0) *)
  argmax : Logits -> list Z;
  (* labels.reshape(-1) *)
  reshape_flat : Labels -> list Z;
  accuracy_score : list Z -> list Z -> Score;
  f1_score : list Z -> list Z -> Score;
  confusion_figure : list Z -> list Z -> Figure;
  (* the constructors of emotion_id.model *)
  construct : Arch -> Params * SeqState;
  (* RAdam(model.parameters(), ...) and FlatCA(optimizer, ...) *)
  optimizer_init : bool -> Params -> OptState;
  (* zero_grad; loss.backward(); clip_grad_norm_; optimizer.step();
     scheduler.step() when lr_schedule *)
  optimizer_step :
    bool -> OptState -> Params -> Logits -> Labels -> OptState * Params;
  (* util.setup_dry_run *)
  setup_dry_run : Flags -> Flags
}.

Section Embedding.

Context {C : Collaborators}.

(** ** The models and the generators seen by [train.py] *)

Record Classifier : Type := mkClassifier {
  params : Params;
  mode : Mode;
  sequential : Stateful SeqState
}.

Record Env : Type := mkEnv {
  rng : Rng;
  cpc : Stateful CpcState;
  model : Classifier;
  calls : list Call
}.

Definition log (c : Call) (e : Env) : Env :=
  {| rng := rng e; cpc := cpc e; model := model e; calls := calls e ++ [c] |}.

Definition with_rng (r : Rng) (e : Env) : Env :=
  {| rng := r; cpc := cpc e; model := model e; calls := calls e |}.

Definition with_cpc (c : Stateful CpcState) (e : Env) : Env :=
  {| rng := rng e; cpc := c; model := model e; calls := calls e |}.

Definition with_model (m : Classifier) (e : Env) : Env :=
  {| rng := rng e; cpc := cpc e; model := m; calls := calls e |}.

Definition with_seq (s : Stateful SeqState) (m : Classifier) : Classifier :=
  {| params := params m; mode := mode m; sequential := s |}.

Definition with_mode (md : Mode) (m : Classifier) : Classifier :=
  {| params := params m; mode := md; sequential := sequential m |}.

Definition with_params (p : Params) (m : Classifier) : Classifier :=
  {| params := p; mode := mode m; sequential := sequential m |}.

(** [model.eval()], [model.train()] *)
Definition model_eval (e : Env) : Env :=
  log ModelEval (with_model (with_mode EvalMode (model e)) e).

Definition model_train (e : Env) : Env :=
  log ModelTrain (with_model (with_mode TrainMode (model e)) e).

(** [cpc.stash_state()], [model.stash_state()] *)
Definition cpc_stash_state (e : Env) : Env :=
  log CpcStash (with_cpc (stash_state (cpc e)) e).

Definition model_stash_state (e : Env) : Env :=
  log ModelStash (with_model (with_seq (stash_state (sequential (model e))) (model e)) e).

(** [cpc.pop_state()], [model.pop_state()] *)
Definition cpc_pop_state (e : Env) : Result Env :=
  c <- pop_state (cpc e) ;;
  Ok (log CpcPop (with_cpc c e)).

Definition model_pop_state (e : Env) : Result Env :=
  s <- pop_state (sequential (model e)) ;;
  Ok (log ModelPop (with_model (with_seq s (model e)) e)).

(** [features = cpc(data)] *)
Definition cpc_call (data : Data) (e : Env) : Features * Env :=
  let '(features, s, r) := cpc_forward (current (cpc e)) (rng e) data in
  (features, log CpcForward (with_rng r (with_cpc (set_current s (cpc e)) e))).

(** [pred = model(features)] *)
Definition model_call (features : Features) (e : Env) : Logits * Env :=
  let m := model e in
  let '(pred, s, r) :=
    model_forward (mode m) (params m) (current (sequential m)) (rng e) features in
  (pred,
   log ModelForward (with_rng r (with_model (with_seq (set_current s (sequential m)) m) e))).

(** ** [validate] *)

Section Validate.

(** [FLAGS.valid_steps] *)
Variable valid_steps : Z.

(** The body of the loop of [validate], up to the [append]. *)
Definition validate_step (data : Data) (labels : Labels) (e : Env) : F64.float * Env :=
  let '(features, e) := cpc_call data e in
  let '(pred, e) := model_call features e in
  let labels := resample_1d labels (shape1 pred) in
  (cross_entropy pred labels, e).

(** [for step, batch in enumerate(datastream): ...; if step >= FLAGS.valid_steps: break] *)
Equations? validate_loop (step : Z) (datastream : Cursor) (losses : list F64.float)
  (e : Env) : list F64.float * Cursor * Env
  by wf (Z.to_nat (valid_steps - step)) lt :=
  validate_loop step datastream losses e with next_batch datastream (rng e) := {
    | None := (losses, datastream, e)
    | Some (data, labels, datastream', r) with Z_ge_lt_dec step valid_steps := {
        | left _ :=
            let '(loss, e') := validate_step data labels (with_rng r e) in
            (losses ++ [loss], datastream', e')
        | right _ :=
            let '(loss, e') := validate_step data labels (with_rng r e) in
            validate_loop (step + 1) datastream' (losses ++ [loss]) e' } }.
Proof. lia. Qed.

(** Modelled from the spec: [FixedRandomState] (section 4.3 step 2 and the
    design notes; the context manager is defined in [util]).  Entering the
    context seeds the generators with the given constant; leaving it puts back
    the generator state captured on entry. *)
Definition FixedRandomState {A : Type} (seed : Z) (body : Env -> A * Env)
  (e : Env) : A * Env :=
  let saved := rng e in
  let '(a, e') := body (with_rng (seeded seed) e) in
  (a, with_rng saved e').

Definition validate (datastream : Cursor) (e : Env)
  : Result (F64.float * Cursor * Env) :=
  let losses : list F64.float := [] in
  let e := model_eval e in
  let e := cpc_stash_state e in
  let e := model_stash_state e in
  let '(losses, datastream, e) :=
    FixedRandomState 42
      (fun e => let '(l, d, e') := validate_loop 0 datastream losses e in
                ((l, d), e')) e in
  e <- cpc_pop_state e ;;
  e <- model_pop_state e ;;
  let e := model_train e in
  Ok (F64.np_mean losses, datastream, e).

End Validate.

(** ** [validate_filewise] *)

(** The three accumulators of [validate_filewise]. *)
Record Accumulators : Type := mkAccumulators {
  losses : list F64.float;
  preds : list (list Z);
  refs : list (list Z)
}.

(** What [validate_filewise] returns: [av_loss, acc, f1, fig]. *)
Record FilewiseRun : Type := mkFilewiseRun {
  av_loss : F64.float;
  acc : Score;
  f1 : Score;
  fig : Figure
}.

(** [torch.cat(tensors, dim=0)] of one-dimensional tensors; an empty list of
    tensors is refused. *)
Definition torch_cat (tensors : list (list Z)) : Result (list Z) :=
  match tensors with
  | [] => Raise (RuntimeError "torch.cat(): expected a non-empty list of Tensors")
  | _ => Ok (List.concat tensors)
  end.

(** The labels appended to [refs] for one window. *)
Definition filewise_labels (logits : Logits) (labels : Labels) : Labels :=
  if shape1 logits >? 1 then resample_1d labels (shape1 logits) else labels.

(** [F.cross_entropy(input, target)] refuses ([ValueError], "Expected input
    batch_size (N) to match target batch_size (M)") an input whose number of
    rows is not the number of targets.  In [validate_filewise] the input is
    [logits.reshape(-1, num_emotions)] for the logits of the one lane made by
    [unsqueeze(0)]: [logits.shape[1]] rows; the targets are
    [labels.reshape(-1)].  ([validate] and the loop of [train] hand
    [F.cross_entropy] labels that always come out of [resample_1d] at
    [pred.shape[1]].) *)
Definition cross_entropy_fits (logits : Logits) (labels : Labels) : bool :=
  shape1 logits =? Z.of_nat (List.length (reshape_flat labels)).

(** The body of the inner loop: one window of one file.  [preds] and [refs]
    are appended to before the loss is taken. *)
Definition filewise_window (st : Accumulators * Env) (batch : Data * Labels)
  : Accumulators * Env * option Error :=
  let '(a, e) := st in
  let '(data, labels) := batch in
  let '(features, e) := cpc_call data e in
  let '(logits, e) := model_call features e in
  let pred := argmax logits in
  let preds := preds a ++ [pred] in
  let labels := filewise_labels logits labels in
  let refs := refs a ++ [reshape_flat labels] in
  if cross_entropy_fits logits labels then
    let losses := losses a ++ [cross_entropy logits labels] in
    ({| losses := losses; preds := preds; refs := refs |}, e, None)
  else
    ({| losses := losses a; preds := preds; refs := refs |}, e,
     Some (ValueError "Expected input batch_size to match target batch_size")).

(** The body of the outer loop: the stream of one manifest entry. *)
Definition filewise_entry (st : Accumulators * Env) (dbl_entry : DblEntry)
  : Accumulators * Env * option Error :=
  for_each filewise_window (file_stream dbl_entry) st.

(** sklearn's [check_consistent_length], the first thing [accuracy_score]
    does with its two arrays. *)
Definition check_consistent_length (refs preds : list Z) : Result unit :=
  if (List.length refs =? List.length preds)%nat then Ok tt
  else Raise (ValueError "Found input variables with inconsistent numbers of samples").

(** An exception leaves the models as they are when it is raised. *)
Definition or_raise {A B : Type} (e : Env) (m : Result A)
  (k : A -> Result B * Env) : Result B * Env :=
  match m with
  | Ok a => k a
  | Raise err => (Raise err, e)
  end.

(** The body of [validate_filewise]: what the call returns or raises, and
    the models as the call leaves them in either case. *)
Definition validate_filewise_outcome (dbl : list DblEntry) (e : Env)
  : Result FilewiseRun * Env :=
  let a := {| losses := []; preds := []; refs := [] |} in
  let e := model_eval e in
  let e := cpc_stash_state e in
  let e := model_stash_state e in
  let '(a, e, raised) := for_each filewise_entry dbl (a, e) in
  match raised with
  | Some err => (Raise err, e)
  | None =>
      or_raise e (torch_cat (preds a)) (fun preds =>
      or_raise e (torch_cat (refs a)) (fun refs =>
      let av_loss := F64.np_mean (losses a) in
      or_raise e (check_consistent_length refs preds) (fun _ =>
      let acc := accuracy_score refs preds in
      let f1 := f1_score refs preds in
      let fig := confusion_figure refs preds in
      or_raise e (cpc_pop_state e) (fun e =>
      or_raise e (model_pop_state e) (fun e =>
      let e := model_train e in
      (Ok {| av_loss := av_loss; acc := acc; f1 := f1; fig := fig |}, e))))))
  end.

(** [validate_filewise] as its caller sees it: [train] has no handler, an
    exception ends the run. *)
Definition validate_filewise (dbl : list DblEntry) (e : Env)
  : Result (FilewiseRun * Env) :=
  match validate_filewise_outcome dbl e with
  | (Ok run, e) => Ok (run, e)
  | (Raise err, _) => Raise err
  end.

(** ** [train] *)

(** Python's [not x] on an integer flag: true on [None] and on [0]. *)
Definition not_set (x : option Z) : bool :=
  match x with
  | None => true
  | Some v => v =? 0
  end.

(** The cadence after the three [if not FLAGS...] defaults of [train]. *)
Record Cadence : Type := mkCadence {
  steps : Z;
  val_every : Z;
  save_every : Z;
  valid_steps : Z
}.

Definition from_flag (x : option Z) (default : Z) : Z :=
  if not_set x then default else
  match x with Some v => v | None => default end.

Definition cadence (FLAGS : Flags) : Cadence :=
  let val_every :=
    from_flag (FLAGS_val_every FLAGS) (Z.max 100 (FLAGS_steps FLAGS / 50)) in
  let save_every := from_flag (FLAGS_save_every FLAGS) val_every in
  let valid_steps :=
    from_flag (FLAGS_valid_steps FLAGS) (Z.max 20 (val_every / 100)) in
  {| steps := FLAGS_steps FLAGS; val_every := val_every;
     save_every := save_every; valid_steps := valid_steps |}.

(** The chain of tests on [FLAGS.model].  The test for "linear" is a
    statement of its own; the chain that ends in [raise NameError] starts at
    "baseline". *)
Definition select_model (name : string) : Result Arch :=
  let model : option Arch :=
    if (name =? "linear")%string then Some LinearEmotionIDModel else None in
  if (name =? "baseline")%string then Ok BaselineEmotionIDModel
  else if (name =? "mlp2")%string then Ok (MLPEmotionIDModel 2)
  else if (name =? "mlp4")%string then Ok (MLPEmotionIDModel 4)
  else if (name =? "conv")%string then Ok (ConvEmotionIDModel 4)
  else if (name =? "rnn")%string then Ok (RecurrentEmotionIDModel false)
  else if (name =? "rnn_bi")%string then Ok (RecurrentEmotionIDModel true)
  else if (name =? "wavenet")%string then Ok (WaveNetEmotionIDModel true)
  else if (name =? "wavenet_unmasked")%string then Ok (WaveNetEmotionIDModel false)
  else Raise (NameError "Model name not found").

(** The values [flags.DEFINE_enum] accepts for [FLAGS.model]. *)
Definition model_enum : list string :=
  ["linear"; "baseline"; "mlp2"; "mlp4"; "conv"; "rnn"; "rnn_bi"; "wavenet";
   "wavenet_unmasked"]%string.

(** The suffix appended to [FLAGS.model_out] by a [save]. *)
Inductive Suffix : Type :=
| NoSuffix
| BestVal
| StepTag (step : Z).

Inductive Split : Type := ValidSplit | TestSplit.

(** What a run leaves behind: the lines of [train.txt] and [valid.txt], the
    filewise scalars, and the models saved. *)
Inductive Event : Type :=
| TrainLoss (step : Z) (loss : F64.float)
| ValidLoss (step : Z) (loss : F64.float)
| Filewise (split : Split) (step : Z) (run : FilewiseRun)
| Save (suffix : Suffix) (m : Classifier).

Record TrainState : Type := mkTrainState {
  env : Env;
  optimizer : OptState;
  train_datastream : Cursor;
  valid_datastream : Cursor;
  best_val_loss : F64.float;
  events : list Event
}.

Definition with_env (e : Env) (st : TrainState) : TrainState :=
  {| env := e; optimizer := optimizer st;
     train_datastream := train_datastream st;
     valid_datastream := valid_datastream st;
     best_val_loss := best_val_loss st; events := events st |}.

Definition emit (ev : Event) (st : TrainState) : TrainState :=
  {| env := env st; optimizer := optimizer st;
     train_datastream := train_datastream st;
     valid_datastream := valid_datastream st;
     best_val_loss := best_val_loss st; events := events st ++ [ev] |}.

(** [save(model, FLAGS.model_out + suffix)] *)
Definition save (suffix : Suffix) (st : TrainState) : TrainState :=
  emit (Save suffix (model (env st))) st.

Section Train.

Variable cad : Cadence.
Variable lr_schedule : bool.
Variables parsed_valid_dbl parsed_test_dbl : list DblEntry.

(** The guard of the two periodic events.  (Neither period is [0] once the
    defaults are in: [cadence_periods_nonzero] below.) *)
Definition due (step every : Z) : bool :=
  (step mod every =? 0) && negb (step =? 0).

(** The block under [if step % FLAGS.val_every == 0 and step != 0]. *)
Definition validation_event (step : Z) (st : TrainState) : Result TrainState :=
  '(valid_loss, vds, e) <-
    validate (valid_steps cad) (valid_datastream st) (env st) ;;
  let st :=
    {| env := e; optimizer := optimizer st;
       train_datastream := train_datastream st;
       valid_datastream := vds;
       best_val_loss := best_val_loss st; events := events st |} in
  let st := emit (ValidLoss step valid_loss) st in
  '(run, e) <- validate_filewise parsed_valid_dbl (env st) ;;
  let st := emit (Filewise ValidSplit step run) (with_env e st) in
  '(run, e) <- validate_filewise parsed_test_dbl (env st) ;;
  let st := emit (Filewise TestSplit step run) (with_env e st) in
  if F64.ltb valid_loss (best_val_loss st) then
    let st := save BestVal st in
    Ok {| env := env st; optimizer := optimizer st;
          train_datastream := train_datastream st;
          valid_datastream := valid_datastream st;
          best_val_loss := valid_loss; events := events st |}
  else Ok st.

(** The body of the loop of [train], from the forward passes to the
    periodic save. *)
Definition train_step (step : Z) (data : Data) (labels : Labels)
  (st : TrainState) : Result TrainState :=
  let e := env st in
  let '(features, e) := cpc_call data e in
  let '(pred, e) := model_call features e in
  let labels := resample_1d labels (shape1 pred) in
  let '(output, e) := model_call features e in
  let loss := cross_entropy output labels in
  let '(opt, p) :=
    optimizer_step lr_schedule (optimizer st) (params (model e)) output labels in
  let e := with_model (with_params p (model e)) e in
  let st :=
    {| env := e; optimizer := opt;
       train_datastream := train_datastream st;
       valid_datastream := valid_datastream st;
       best_val_loss := best_val_loss st; events := events st |} in
  let st := emit (TrainLoss step loss) st in
  st <- (if due step (val_every cad) then validation_event step st else Ok st) ;;
  let st := if due step (save_every cad) then save (StepTag step) st else st in
  Ok st.

(** [next(...)] on the training stream. *)
Definition pull_train (st : TrainState)
  : option (Data * Labels * TrainState) :=
  match next_batch (train_datastream st) (rng (env st)) with
  | None => None
  | Some (data, labels, c, r) =>
      Some (data, labels,
            {| env := with_rng r (env st); optimizer := optimizer st;
               train_datastream := c;
               valid_datastream := valid_datastream st;
               best_val_loss := best_val_loss st; events := events st |})
  end.

(** [for step, batch in enumerate(train_datastream): ...;
     if step >= FLAGS.steps: break] *)
Equations? train_loop (step : Z) (st : TrainState) : Result TrainState
  by wf (Z.to_nat (steps cad - step)) lt :=
  train_loop step st with pull_train st := {
    | None := Ok st
    | Some (data, labels, st1) with train_step step data labels st1 := {
        | Raise err := Raise err
        | Ok st2 with Z_ge_lt_dec step (steps cad) := {
            | left _ := Ok st2
            | right _ := train_loop (step + 1) st2 } } }.
Proof. lia. Qed.

End Train.

(** What [train] starts from once the flags are read: the seeded generators,
    the feature extractor after [load_model] and [reset_state] (or [NoCPC]),
    the two streaming loaders and the two parsed manifests. *)
Record Setup : Type := mkSetup {
  setup_rng : Rng;
  setup_cpc : CpcState;
  setup_train : Cursor;
  setup_valid : Cursor;
  setup_valid_dbl : list DblEntry;
  setup_test_dbl : list DblEntry
}.

Definition initial_state (FLAGS : Flags) (s : Setup) (arch : Arch) : TrainState :=
  let '(p, q) := construct arch in
  let model :=
    {| params := p; mode := TrainMode;
       sequential := {| current := q; stashed := [] |} |} in
  {| env := {| rng := setup_rng s;
               cpc := {| current := setup_cpc s; stashed := [] |};
               model := model; calls := [] |};
     optimizer := optimizer_init (FLAGS_lr_schedule FLAGS) p;
     train_datastream := setup_train s;
     valid_datastream := setup_valid s;
     best_val_loss := F64.inf;
     events := [] |}.

(** [if FLAGS.dry_run is True: setup_dry_run(FLAGS)] *)
Definition effective_flags (FLAGS : Flags) : Flags :=
  if FLAGS_dry_run FLAGS then setup_dry_run FLAGS else FLAGS.

(** The cadence a run goes by. *)
Definition run_cadence (FLAGS : Flags) : Cadence :=
  cadence (effective_flags FLAGS).

Definition train (FLAGS : Flags) (s : Setup) : Result TrainState :=
  let FLAGS := effective_flags FLAGS in
  let cad := cadence FLAGS in
  arch <- select_model (FLAGS_model FLAGS) ;;
  let st := initial_state FLAGS s arch in
  st <- train_loop cad (FLAGS_lr_schedule FLAGS)
          (setup_valid_dbl s) (setup_test_dbl s) 0 st ;;
  Ok (save NoSuffix st).

(** ** Reading a run *)

(** The calls of [n] passes through the feature extractor and the
    classifier. *)
Definition forwards (n : nat) : list Call :=
  List.concat (repeat [CpcForward; ModelForward] n).

(** The models and the generators as the loop of [validate] finds them. *)
Definition validation_env (e : Env) : Env :=
  with_rng (seeded 42) (model_stash_state (cpc_stash_state (model_eval e))).

(** The models as an evaluation call hands them back: everything as it was
    on entry, the classifier in train mode, the calls made in between
    appended to the log. *)
Definition handed_back (e : Env) (r : Rng) (passes : nat) : Env :=
  {| rng := r; cpc := cpc e; model := with_mode TrainMode (model e);
     calls := calls e ++ [ModelEval; CpcStash; ModelStash] ++ forwards passes
                      ++ [CpcPop; ModelPop; ModelTrain] |}.

(** All the windows of a manifest, file after file. *)
Definition windows (dbl : list DblEntry) : list (Data * Labels) :=
  flat_map file_stream dbl.

(** A manifest entry whose file yields no window. *)
Definition yields_nothing (dbl_entry : DblEntry) : bool :=
  match file_stream dbl_entry with
  | [] => true
  | _ :: _ => false
  end.

(** What a forward pass leaves alone: the stacks of stashed states, the
    parameters and the mode of the classifier. *)
Definition same_frame (e e' : Env) : Prop :=
  stashed (cpc e') = stashed (cpc e) /\
  stashed (sequential (model e')) = stashed (sequential (model e)) /\
  params (model e') = params (model e) /\
  mode (model e') = mode (model e).

(** A loader that never raises [StopIteration], whatever the generators are:
    its cursor stays inside a set of cursors that all yield a batch. *)
Definition Endless (c : Cursor) : Prop :=
  exists I : Cursor -> Prop,
    I c /\
    forall c1 r, I c1 ->
      exists data labels c2 r2,
        next_batch c1 r = Some (data, labels, c2, r2) /\ I c2.

(** The step numbers of the periodic checkpoints, in the order written. *)
Fixpoint periodic_tags (tr : list Event) : list Z :=
  match tr with
  | [] => []
  | Save (StepTag n) _ :: tr => n :: periodic_tags tr
  | _ :: tr => periodic_tags tr
  end.

(** The steps at which [validate] ran, and the losses it returned. *)
Fixpoint validation_steps (tr : list Event) : list Z :=
  match tr with
  | [] => []
  | ValidLoss n _ :: tr => n :: validation_steps tr
  | _ :: tr => validation_steps tr
  end.

Fixpoint valid_losses (tr : list Event) : list F64.float :=
  match tr with
  | [] => []
  | ValidLoss _ v :: tr => v :: valid_losses tr
  | _ :: tr => valid_losses tr
  end.

(** The number of batches the loop of [train] went through: one line of
    [train.txt] each. *)
Fixpoint batches (tr : list Event) : Z :=
  match tr with
  | [] => 0
  | TrainLoss _ _ :: tr => 1 + batches tr
  | _ :: tr => batches tr
  end.

(** The number of saves to the path without suffix. *)
Fixpoint final_saves (tr : list Event) : Z :=
  match tr with
  | [] => 0
  | Save NoSuffix _ :: tr => 1 + final_saves tr
  | _ :: tr => final_saves tr
  end.

(** Is the best-tagged checkpoint written before the next validation? *)
Fixpoint rewritten (tr : list Event) : bool :=
  match tr with
  | [] => false
  | Save BestVal _ :: _ => true
  | ValidLoss _ _ :: _ => false
  | _ :: tr => rewritten tr
  end.

(** For each validation of the run, in order: was the best-tagged checkpoint
    rewritten right after it? *)
Fixpoint best_writes (tr : list Event) : list bool :=
  match tr with
  | [] => []
  | ValidLoss _ _ :: tr => rewritten tr :: best_writes tr
  | _ :: tr => best_writes tr
  end.


(** [lo], [lo + 1], ..., [n] integers in all. *)
Fixpoint ints_from (lo : Z) (n : nat) : list Z :=
  match n with
  | O => []
  | S n => lo :: ints_from (lo + 1) n
  end.



(** The events of the block under the validation guard, with the best loss
    before and after it. *)
Inductive ValidationBlock (every step : Z) (best : F64.float)
  : list Event -> F64.float -> Prop :=
| block_skipped :
    due step every = false ->
    ValidationBlock every step best [] best
| block_kept v r1 r2 :
    due step every = true ->
    F64.ltb v best = false ->
    ValidationBlock every step best
      [ValidLoss step v; Filewise ValidSplit step r1; Filewise TestSplit step r2]
      best
| block_best v r1 r2 m :
    due step every = true ->
    F64.ltb v best = true ->
    ValidationBlock every step best
      [ValidLoss step v; Filewise ValidSplit step r1; Filewise TestSplit step r2;
       Save BestVal m]
      v.

(** The iterations of the loop of [train], as a relation between the state
    at the head of iteration [step] and the state the loop is left with. *)
Inductive Run (cad : Cadence) (lr : bool) (vdbl tdbl : list DblEntry)
  : Z -> TrainState -> TrainState -> Prop :=
| run_exhausted step st :
    pull_train st = None ->
    Run cad lr vdbl tdbl step st st
| run_break step st data labels st1 st2 :
    pull_train st = Some (data, labels, st1) ->
    train_step cad lr vdbl tdbl step data labels st1 = Ok st2 ->
    step >= steps cad ->
    Run cad lr vdbl tdbl step st st2
| run_next step st data labels st1 st2 st3 :
    pull_train st = Some (data, labels, st1) ->
    train_step cad lr vdbl tdbl step data labels st1 = Ok st2 ->
    step < steps cad ->
    Run cad lr vdbl tdbl (step + 1) st2 st3 ->
    Run cad lr vdbl tdbl step st st3.

(** The step numbers of the lines of [train.txt], in order. *)
Fixpoint train_steps (tr : list Event) : list Z :=
  match tr with
  | [] => []
  | TrainLoss n _ :: tr => n :: train_steps tr
  | _ :: tr => train_steps tr
  end.

(** The filewise evaluations of a run: which manifest, at which step. *)
Fixpoint filewise_steps (tr : list Event) : list (Split * Z) :=
  match tr with
  | [] => []
  | Filewise split n _ :: tr => (split, n) :: filewise_steps tr
  | _ :: tr => filewise_steps tr
  end.

(** The suffixes of the paths written by [save], in order. *)
Fixpoint suffixes (tr : list Event) : list Suffix :=
  match tr with
  | [] => []
  | Save suffix _ :: tr => suffix :: suffixes tr
  | _ :: tr => suffixes tr
  end.

(** The classifiers handed to [save], in order. *)
Fixpoint saved_models (tr : list Event) : list Classifier :=
  match tr with
  | [] => []
  | Save _ m :: tr => m :: saved_models tr
  | _ :: tr => saved_models tr
  end.

(** [best] is the least of the losses [prior], or [inf] when there is
    none. *)
Definition LeastOf (best : F64.float) (prior : list F64.float) : Prop :=
  (best = F64.inf /\ prior = []) \/
  (In best prior /\ Forall (fun v => F64.ltb v best = false) prior).

(** A classifier as [train] constructs it and keeps it between two
    evaluations: in train mode, nothing stashed. *)
Definition at_rest (m : Classifier) : Prop :=
  mode m = TrainMode /\ stashed (sequential m) = [].

(** How many times a call was made. *)
Definition same_call (a b : Call) : bool :=
  match a, b with
  | ModelEval, ModelEval | ModelTrain, ModelTrain
  | CpcStash, CpcStash | ModelStash, ModelStash
  | CpcForward, CpcForward | ModelForward, ModelForward
  | CpcPop, CpcPop | ModelPop, ModelPop => true
  | _, _ => false
  end.

Fixpoint occurrences (c : Call) (l : list Call) : Z :=
  match l with
  | [] => 0
  | c' :: l => (if same_call c c' then 1 else 0) + occurrences c l
  end.

(** The models as the loops of [validate_filewise] find them. *)
Definition filewise_env (e : Env) : Env :=
  model_stash_state (cpc_stash_state (model_eval e)).

(** The accumulators as [validate_filewise] starts with them. *)
Definition no_window : Accumulators :=
  {| losses := []; preds := []; refs := [] |}.

(** The logits the two models give for the windows [ws], gone through in
    order from the models [e], each with the labels of its window as the
    file stream gives them. *)
Fixpoint filewise_trace (ws : list (Data * Labels)) (e : Env)
  : list (Logits * Labels) :=
  match ws with
  | [] => []
  | (data, labels) :: ws =>
      let '(features, e) := cpc_call data e in
      let '(logits, e) := model_call features e in
      (logits, labels) :: filewise_trace ws e
  end.

(** The reference labels of a window: resampled to the number of prediction
    frames when that number is greater than 1, as they come otherwise. *)
Definition expected_ref (w : Logits * Labels) : list Z :=
  reshape_flat (if 1 <? shape1 (fst w)
                then resample_1d (snd w) (shape1 (fst w))
                else snd w).

Definition expected_pred (w : Logits * Labels) : list Z := argmax (fst w).

(** The loss of a window of [validate_filewise], and whether
    [F.cross_entropy] takes it: as many reference labels as prediction
    frames. *)
Definition window_fits (w : Logits * Labels) : bool :=
  shape1 (fst w) =? Z.of_nat (List.length (expected_ref w)).

Definition window_loss (w : Logits * Labels) : F64.float :=
  cross_entropy (fst w)
    (if 1 <? shape1 (fst w) then resample_1d (snd w) (shape1 (fst w)) else snd w).

(** The windows the loops get to: all of them, or those up to the first one
    whose loss is refused, that one included; and the windows whose loss was
    taken. *)
Fixpoint reached (tr : list (Logits * Labels)) : list (Logits * Labels) :=
  match tr with
  | [] => []
  | w :: tr => if window_fits w then w :: reached tr else [w]
  end.

Fixpoint passed (tr : list (Logits * Labels)) : list (Logits * Labels) :=
  match tr with
  | [] => []
  | w :: tr => if window_fits w then w :: passed tr else []
  end.




(** [n] batches pulled in a row from a loader, whatever the generators were
    at each pull: the cursor before the first and the cursor after the
    last. *)
Inductive Pulled : nat -> Cursor -> Cursor -> Prop :=
| pulled_none c : Pulled 0 c c
| pulled_more n c r data labels c1 r1 c' :
    next_batch c r = Some (data, labels, c1, r1) ->
    Pulled n c1 c' ->
    Pulled (S n) c c'.

End Embedding.

(** ** A concrete set of collaborators *)

(** Small integer stand-ins for the tensors and the models, on which the
    definitions above run: windows of integer samples with labels in three
    classes, a feature extractor and a classifier that both carry a counter as
    sequential state, a classifier that emits one frame per four input
    frames and draws from the generators in train mode only. *)
Module Scenario.

Record Loader : Type := mkLoader {
  position : Z;
  remaining : option nat   (* None: the loader samples for ever *)
}.

Definition frames (start : Z) (n : nat) : list Z :=
  map (fun i => start + Z.of_nat i) (seq 0 n).

Definition label_of (x : Z) : Z := x mod 3.

Definition next (c : Loader) (r : Z)
  : option (list Z * list Z * Loader * Z) :=
  let data := frames (8 * position c + r) 8 in
  let batch := (data, map label_of data) in
  match remaining c with
  | None =>
      Some (batch, {| position := position c + 1; remaining := None |}, r + 1)
  | Some O => None
  | Some (S n) =>
      Some (batch, {| position := position c + 1; remaining := Some n |}, r + 1)
  end.

(** Keep one frame out of four. *)
Fixpoint decimate (skip : nat) (l : list Z) : list Z :=
  match l with
  | [] => []
  | x :: l =>
      match skip with
      | O => x :: decimate 3 l
      | S k => decimate k l
      end
  end.

Definition forward (md : Mode) (p s r : Z) (features : list Z)
  : list Z * Z * Z :=
  match md with
  | TrainMode => (map (fun x => (x + p + s + r) mod 3) (decimate 0 features), s + 1, r + 1)
  | EvalMode => (map (fun x => (x + p + s) mod 3) (decimate 0 features), s + 1, r)
  end.

Definition resample (labels : list Z) (T : Z) : list Z :=
  let L := Z.of_nat (List.length labels) in
  map (fun t => nth (Z.to_nat (Z.of_nat t * L / T)) labels 0)
      (seq 0 (Z.to_nat T)).

Fixpoint mismatches (a b : list Z) : Z :=
  match a, b with
  | x :: a, y :: b => (if x =? y then 0 else 1) + mismatches a b
  | _, _ => 0
  end.

Definition loss (logits labels : list Z) : F64.float :=
  F64.div (F64.of_Z (1 + mismatches logits labels))
          (F64.of_Z (1 + Z.of_nat (List.length logits))).

Definition collaborators : Collaborators :=
  {| Data := list Z;
     Labels := list Z;
     Features := list Z;
     Logits := list Z;
     Rng := Z;
     Cursor := Loader;
     CpcState := Z;
     SeqState := Z;
     Params := Z;
     OptState := Z;
     DblEntry := list (list Z * list Z);
     Score := Z;
     Figure := unit;
     seeded := fun seed => seed;
     next_batch := next;
     file_stream := fun entry => entry;
     cpc_forward := fun s r data => (map (fun x => x + s) data, s + 1, r);
     model_forward := forward;
     shape1 := fun logits => Z.of_nat (List.length logits);
     resample_1d := resample;
     cross_entropy := loss;
     argmax := fun logits => logits;
     reshape_flat := fun labels => labels;
     accuracy_score := fun refs preds => Z.of_nat (List.length refs) - mismatches refs preds;
     f1_score := fun refs preds => Z.of_nat (List.length refs) - mismatches refs preds;
     confusion_figure := fun _ _ => tt;
     construct := fun _ => (0, 0);
     optimizer_init := fun _ _ => 0;
     optimizer_step := fun _ o p _ _ => (o + 1, p + 1);
     setup_dry_run := fun FLAGS => FLAGS |}.

Definition endless : Loader := {| position := 0; remaining := None |}.

(** A file of two windows of eight frames, a file of one window of four
    frames, and a file without any frame. *)
Definition file_a : list (list Z * list Z) :=
  [(frames 0 8, map label_of (frames 0 8));
   (frames 8 8, map label_of (frames 8 8))].
Definition file_short : list (list Z * list Z) :=
  [(frames 0 4, map label_of (frames 0 4))].
Definition file_empty : list (list Z * list Z) := [].

Definition env0 : @Env collaborators :=
  @mkEnv collaborators 7 (mkStateful 3 [])
    (@mkClassifier collaborators 1 TrainMode (mkStateful 5 [])) [].

Definition setup : @Setup collaborators :=
  @mkSetup collaborators 7 0 endless endless [file_a; file_empty] [file_a].

(** steps=10, val_every=5, save_every=5 *)
Definition flags_A : Flags :=
  {| FLAGS_model := "mlp2"; FLAGS_steps := 10;
     FLAGS_valid_steps := Some 2; FLAGS_val_every := Some 5;
     FLAGS_save_every := Some 5; FLAGS_lr_schedule := false;
     FLAGS_dry_run := false |}.

Definition flags_linear : Flags :=
  {| FLAGS_model := "linear"; FLAGS_steps := 10;
     FLAGS_valid_steps := Some 2; FLAGS_val_every := Some 5;
     FLAGS_save_every := Some 5; FLAGS_lr_schedule := false;
     FLAGS_dry_run := false |}.


(** The state the run of [flags_A] on [setup] ends in. *)
Definition final_A : @TrainState collaborators :=
  Eval vm_compute in
    match @train collaborators flags_A setup with
    | Ok st => st
    | Raise _ => @initial_state collaborators flags_A setup LinearEmotionIDModel
    end.


(** steps=3 and the three cadence flags left unset. *)
Definition flags_short : Flags :=
  {| FLAGS_model := "conv"; FLAGS_steps := 3;
     FLAGS_valid_steps := None; FLAGS_val_every := None;
     FLAGS_save_every := Some 0; FLAGS_lr_schedule := true;
     FLAGS_dry_run := false |}.

Definition final_short : @TrainState collaborators :=
  Eval vm_compute in
    match @train collaborators flags_short setup with
    | Ok st => st
    | Raise _ => @initial_state collaborators flags_A setup LinearEmotionIDModel
    end.

(** A training loader with four batches in all. *)
Definition four_batches : Loader := {| position := 0; remaining := Some 4%nat |}.

Definition setup_four : @Setup collaborators :=
  @mkSetup collaborators 7 0 four_batches endless [file_a; file_empty] [file_a].

Definition final_four : @TrainState collaborators :=
  Eval vm_compute in
    match @train collaborators flags_A setup_four with
    | Ok st => st
    | Raise _ => @initial_state collaborators flags_A setup LinearEmotionIDModel
    end.


(** One iteration at step 5 from the state [train] starts in, once with
    validation due (every 5 steps) and once without (every 7 steps). *)
Definition state0 : @TrainState collaborators :=
  @initial_state collaborators flags_A setup (MLPEmotionIDModel 2).

Definition cadence_5 : Cadence :=
  {| steps := 10; val_every := 5; save_every := 5; valid_steps := 2 |}.

Definition cadence_7 : Cadence :=
  {| steps := 10; val_every := 7; save_every := 3; valid_steps := 2 |}.

Definition after_validated_step : @TrainState collaborators :=
  Eval vm_compute in
    match @train_step collaborators cadence_5 false [file_a] [file_a] 5
            (frames 0 8) (map label_of (frames 0 8)) state0 with
    | Ok st => st
    | Raise _ => state0
    end.

Definition after_plain_step : @TrainState collaborators :=
  Eval vm_compute in
    match @train_step collaborators cadence_7 false [file_short] [] 5
            (frames 0 8) (map label_of (frames 0 8)) state0 with
    | Ok st => st
    | Raise _ => state0
    end.



(** steps=-3 *)
Definition flags_negative : Flags :=
  {| FLAGS_model := "mlp2"; FLAGS_steps := -3;
     FLAGS_valid_steps := Some 2; FLAGS_val_every := Some 5;
     FLAGS_save_every := Some 5; FLAGS_lr_schedule := false;
     FLAGS_dry_run := false |}.

Definition final_negative : @TrainState collaborators :=
  Eval vm_compute in
    match @train collaborators flags_negative setup with
    | Ok st => st
    | Raise _ => @initial_state collaborators flags_A setup LinearEmotionIDModel
    end.

(** The models as [validate_filewise] leaves them on a manifest of the one
    file of four frames. *)
Definition env_short : @Env collaborators :=
  Eval vm_compute in
    snd (@validate_filewise_outcome collaborators [file_short] env0).

(** 0.1, 0.2, ..., 0.8 *)
Definition tenths : list F64.float :=
  map (fun n => F64.div (F64.of_Z n) (F64.of_Z 10)) [1; 2; 3; 4; 5; 6; 7; 8].

End Scenario.

(** * Properties *)

Section ValidateProperties.

Context {C : Collaborators}.

Lemma same_frame_refl (e : Env) : same_frame e e.
Proof. repeat split. Qed.

Lemma same_frame_trans (e1 e2 e3 : Env) :
  same_frame e1 e2 -> same_frame e2 e3 -> same_frame e1 e3.
Proof.
  unfold same_frame. intros (A1 & A2 & A3 & A4) (B1 & B2 & B3 & B4).
  repeat split; congruence.
Qed.

Lemma same_frame_with_rng (r : Rng) (e : Env) : same_frame e (with_rng r e).
Proof. repeat split. Qed.

Lemma cpc_call_spec (data : Data) (e : Env) :
  calls (snd (cpc_call data e)) = calls e ++ [CpcForward] /\
  same_frame e (snd (cpc_call data e)).
Proof.
  unfold cpc_call.
  destruct (cpc_forward (current (cpc e)) (rng e) data) as [[features s] r].
  simpl. repeat split.
Qed.

Lemma model_call_spec (features : Features) (e : Env) :
  calls (snd (model_call features e)) = calls e ++ [ModelForward] /\
  same_frame e (snd (model_call features e)).
Proof.
  unfold model_call.
  destruct (model_forward _ _ _ _ _) as [[pred s] r].
  simpl. repeat split.
Qed.

(** One pass through both models: two calls, the frame untouched. *)
Lemma forward_pair_spec (data : Data) (e : Env) :
  let e1 := snd (cpc_call data e) in
  let e2 := snd (model_call (fst (cpc_call data e)) e1) in
  calls e2 = calls e ++ forwards 1 /\ same_frame e e2.
Proof.
  cbv zeta.
  destruct (cpc_call_spec data e) as [Hc Hf].
  destruct (model_call_spec (fst (cpc_call data e)) (snd (cpc_call data e)))
    as [Hc' Hf'].
  split.
  - rewrite Hc', Hc, <- app_assoc. reflexivity.
  - eapply same_frame_trans; eassumption.
Qed.

Lemma forwards_add (n m : nat) : forwards n ++ forwards m = forwards (n + m).
Proof.
  unfold forwards. rewrite repeat_app, concat_app. reflexivity.
Qed.

Lemma validate_step_spec (data : Data) (labels : Labels) (e : Env) :
  calls (snd (validate_step data labels e)) = calls e ++ forwards 1 /\
  same_frame e (snd (validate_step data labels e)).
Proof.
  pose proof (forward_pair_spec data e) as H. cbv zeta in H.
  unfold validate_step.
  destruct (cpc_call data e) as [features e1]. simpl in H.
  destruct (model_call features e1) as [pred e2]. simpl in H |- *.
  exact H.
Qed.

(** The loop of [validate]: it extends [losses] by one loss per pass, and by
    nothing exactly when the source has no batch to give. *)
Lemma validate_loop_spec (vs step : Z) (ds : Cursor) (l : list F64.float) (e : Env) :
  exists new,
    fst (fst (validate_loop vs step ds l e)) = l ++ new /\
    calls (snd (validate_loop vs step ds l e)) = calls e ++ forwards (List.length new) /\
    same_frame e (snd (validate_loop vs step ds l e)) /\
    (match next_batch ds (rng e) with
     | None => new = [] /\ snd (fst (validate_loop vs step ds l e)) = ds
     | Some _ => new <> []
     end).
Proof.
  funelim (validate_loop vs step ds l e).
  - rewrite Heq. exists []. simpl. rewrite !app_nil_r. repeat split.
  - rewrite Heq0.
    destruct (validate_step_spec data labels (with_rng r e)) as [Hc Hf].
    destruct (validate_step data labels (with_rng r e)) as [loss e'].
    simpl in *. exists [loss]. split; [|split; [|split]].
    + reflexivity.
    + exact Hc.
    + eapply same_frame_trans; [apply same_frame_with_rng | exact Hf].
    + discriminate.
  - rewrite Heq0.
    destruct (validate_step_spec data labels (with_rng r e)) as [Hc Hf].
    destruct (validate_step data labels (with_rng r e)) as [loss e'].
    simpl in *. 
    destruct (H loss e') as (new & Hl & Hcalls & Hframe & _).
    exists (loss :: new). split; [|split; [|split]].
    + rewrite Hl, <- app_assoc. reflexivity.
    + rewrite Hcalls, Hc, <- app_assoc. reflexivity.
    + eapply same_frame_trans; [|exact Hframe].
      eapply same_frame_trans; [apply same_frame_with_rng | exact Hf].
    + discriminate.
Qed.

(** [validate] never raises; its result is read off the loop. *)
Lemma validate_spec (vs : Z) (ds : Cursor) (e : Env) :
  let r := validate_loop vs 0 ds [] (validation_env e) in
  validate vs ds e =
  Ok (F64.np_mean (fst (fst r)), snd (fst r),
      handed_back e (rng e) (List.length (fst (fst r)))).
Proof.
  cbv zeta. unfold validate, FixedRandomState. fold (validation_env e).
  destruct (validate_loop_spec vs 0 ds [] (validation_env e))
    as (new & Hl & Hc & (F1 & F2 & F3 & F4) & _).
  destruct (validate_loop vs 0 ds [] (validation_env e)) as [[l d] e1].
  simpl in Hl, Hc, F1, F2, F3, F4 |- *. subst l.
  destruct e as [r [cc cs] [p md [sc ss]] cl].
  destruct e1 as [r1 [cc1 cs1] [p1 md1 [sc1 ss1]] cl1].
  simpl in *. subst.
  unfold cpc_pop_state, model_pop_state, pop_state, handed_back. simpl.
  unfold model_train, log, with_model, with_mode, with_seq, with_cpc, with_rng.
  simpl. do 3 f_equal. rewrite <- !app_assoc. reflexivity.
Qed.

(** With a loader that never runs dry, the loop of [validate] goes through
    the steps [step], ..., [valid_steps], one more than [valid_steps - step]. *)
Lemma validate_loop_length (vs step : Z) (ds : Cursor) (l : list F64.float)
  (e : Env) (I : Cursor -> Prop) :
  (forall c1 r, I c1 ->
     exists data labels c2 r2,
       next_batch c1 r = Some (data, labels, c2, r2) /\ I c2) ->
  I ds -> step <= vs ->
  Z.of_nat (List.length (fst (fst (validate_loop vs step ds l e)))) =
  Z.of_nat (List.length l) + (vs - step + 1).
Proof.
  intros Hclosed. funelim (validate_loop vs step ds l e); intros HI Hle.
  - destruct (Hclosed datastream (rng e) HI) as (? & ? & ? & ? & Hn & _).
    congruence.
  - destruct (validate_step data labels (with_rng r e)) as [loss e'].
    simpl. rewrite length_app. simpl. lia.
  - destruct (validate_step data labels (with_rng r e)) as [loss e'].
    destruct (Hclosed datastream (rng e) HI) as (? & ? & c2 & ? & Hn & HI2).
    assert (c2 = datastream') by congruence. subst c2.
    rewrite (H loss e' I Hclosed HI2) by lia.
    rewrite length_app. simpl. lia.
Qed.

(** On a loader that never runs dry [validate] makes [valid_steps + 1]
    passes. *)
Lemma validate_passes_on_endless_source (vs : Z) (ds : Cursor) (e : Env) :
  0 <= vs -> Endless ds ->
  exists loss ds',
    validate vs ds e =
    Ok (loss, ds', handed_back e (rng e) (Z.to_nat (vs + 1))).
Proof.
  intros Hvs (I & HI & Hclosed).
  pose proof (validate_spec vs ds e) as Hv. cbv zeta in Hv.
  pose proof (validate_loop_length ds [] (validation_env e) I Hclosed HI Hvs)
    as Hlen.
  simpl List.length in Hlen.
  eexists _, _. rewrite Hv. do 3 f_equal. lia.
Qed.








End ValidateProperties.

Section FilewiseProperties.

Context {C : Collaborators}.

Lemma for_each_app {A S : Type} (body : S -> A -> S * option Error)
  (l1 l2 : list A) (st : S) :
  for_each body (l1 ++ l2) st =
  match for_each body l1 st with
  | (st1, None) => for_each body l2 st1
  | (st1, Some err) => (st1, Some err)
  end.
Proof.
  revert st. induction l1 as [|x l1 IH]; intros st; simpl; [reflexivity|].
  destruct (body st x) as [st1 [err|]]; [reflexivity | apply IH].
Qed.

(** The two nested loops go through the windows of the manifest in order. *)
Lemma filewise_entries_windows (dbl : list DblEntry) (st : Accumulators * Env) :
  for_each filewise_entry dbl st = for_each filewise_window (windows dbl) st.
Proof.
  revert st. induction dbl as [|d dbl IH]; intros st; [reflexivity|].
  unfold windows in *. cbn [for_each flat_map]. rewrite for_each_app.
  unfold filewise_entry at 1.
  destruct (for_each filewise_window (file_stream d) st) as [st1 [err|]];
    [reflexivity | apply IH].
Qed.

Lemma filewise_trace_length (ws : list (Data * Labels)) (e : Env) :
  List.length (filewise_trace ws e) = List.length ws.
Proof.
  revert e. induction ws as [|[data labels] ws IH]; intros e; [reflexivity|].
  cbn [filewise_trace].
  destruct (cpc_call data e) as [features e1].
  destruct (model_call features e1) as [logits e2].
  simpl. rewrite IH. reflexivity.
Qed.

Lemma reached_length (tr : list (Logits * Labels)) :
  (List.length (reached tr) <= List.length tr)%nat.
Proof.
  induction tr as [|w tr IH]; simpl; [lia|].
  destruct (window_fits w); simpl; lia.
Qed.

Lemma reached_all (tr : list (Logits * Labels)) :
  forallb window_fits tr = true -> reached tr = tr /\ passed tr = tr.
Proof.
  induction tr as [|w tr IH]; simpl; [split; reflexivity|].
  destruct (window_fits w); [|discriminate].
  intros H. destruct (IH H) as [-> ->]. split; reflexivity.
Qed.

(** One window: what the body of the inner loop appends. *)
Lemma filewise_window_spec (a : Accumulators) (e : Env) (data : Data)
  (labels : Labels) :
  let e1 := snd (cpc_call data e) in
  let logits := fst (model_call (fst (cpc_call data e)) e1) in
  let e2 := snd (model_call (fst (cpc_call data e)) e1) in
  let w := (logits, labels) in
  filewise_window (a, e) (data, labels) =
  ({| losses := losses a ++ (if window_fits w then [window_loss w] else []);
      preds := preds a ++ [expected_pred w];
      refs := refs a ++ [expected_ref w] |}, e2,
   if window_fits w then None
   else Some (ValueError "Expected input batch_size to match target batch_size")).
Proof.
  cbv zeta. unfold filewise_window.
  destruct (cpc_call data e) as [features e1]. cbn [fst snd].
  destruct (model_call features e1) as [logits e2]. cbn [fst snd].
  unfold cross_entropy_fits, filewise_labels, window_fits, window_loss,
    expected_ref, expected_pred. cbn [fst snd].
  rewrite Z.gtb_ltb.
  destruct (1 <? shape1 logits);
    destruct (shape1 logits =? _); rewrite ?app_nil_r; reflexivity.
Qed.

(** The inner loop over a list of windows: the accumulators are extended by
    the windows reached, the models make one pass per window reached and
    keep their frame. *)
Lemma filewise_windows_spec (ws : list (Data * Labels)) (a : Accumulators)
  (e : Env) :
  let tr := filewise_trace ws e in
  exists e',
    for_each filewise_window ws (a, e) =
    ({| losses := losses a ++ map window_loss (passed tr);
        preds := preds a ++ map expected_pred (reached tr);
        refs := refs a ++ map expected_ref (reached tr) |}, e',
     if forallb window_fits tr then None
     else Some (ValueError "Expected input batch_size to match target batch_size")) /\
    calls e' = calls e ++ forwards (List.length (reached tr)) /\
    same_frame e e'.
Proof.
  cbv zeta. revert a e.
  induction ws as [|[data labels] ws IH]; intros a e.
  - exists e. simpl. rewrite !app_nil_r. destruct a. repeat split.
  - cbn [for_each filewise_trace].
    rewrite filewise_window_spec.
    pose proof (forward_pair_spec data e) as [Hc Hf]. cbv zeta in Hc, Hf.
    destruct (cpc_call data e) as [features e1]. cbn [fst snd] in *.
    destruct (model_call features e1) as [logits e2]. cbn [fst snd] in *.
    cbn [forallb reached passed].
    destruct (window_fits (logits, labels)).
    + destruct (IH {| losses := losses a ++ [window_loss (logits, labels)];
                      preds := preds a ++ [expected_pred (logits, labels)];
                      refs := refs a ++ [expected_ref (logits, labels)] |} e2)
        as (e' & Hloop & Hc' & Hf').
      exists e'. rewrite Hloop. cbn [losses preds refs map andb List.length].
      rewrite <- !app_assoc. split; [reflexivity|]. split.
      * rewrite Hc', Hc, <- app_assoc, forwards_add. reflexivity.
      * eapply same_frame_trans; eassumption.
    + exists e2. cbn [map andb List.length]. rewrite app_nil_r.
      split; [reflexivity|]. split; assumption.
Qed.

Lemma filewise_env_spec (e : Env) :
  calls (filewise_env e) = calls e ++ [ModelEval; CpcStash; ModelStash] /\
  current (cpc (filewise_env e)) = current (cpc e) /\
  stashed (cpc (filewise_env e)) = current (cpc e) :: stashed (cpc e) /\
  current (sequential (model (filewise_env e))) =
    current (sequential (model e)) /\
  stashed (sequential (model (filewise_env e))) =
    current (sequential (model e)) :: stashed (sequential (model e)) /\
  params (model (filewise_env e)) = params (model e) /\
  mode (model (filewise_env e)) = EvalMode /\
  rng (filewise_env e) = rng e.
Proof.
  unfold filewise_env, model_stash_state, cpc_stash_state, model_eval.
  cbn. rewrite <- !app_assoc. repeat split.
Qed.

(** [validate_filewise], read off the windows of the manifest. *)
Lemma validate_filewise_outcome_spec (dbl : list DblEntry) (e : Env) :
  let tr := filewise_trace (windows dbl) (filewise_env e) in
  let refs := List.concat (map expected_ref tr) in
  let preds := List.concat (map expected_pred tr) in
  exists e1,
    for_each filewise_entry dbl (no_window, filewise_env e) =
    ({| losses := map window_loss (passed tr);
        preds := map expected_pred (reached tr);
        refs := map expected_ref (reached tr) |}, e1,
     if forallb window_fits tr then None
     else Some (ValueError "Expected input batch_size to match target batch_size")) /\
    calls e1 = calls (filewise_env e) ++ forwards (List.length (reached tr)) /\
    same_frame (filewise_env e) e1 /\
    validate_filewise_outcome dbl e =
    if forallb window_fits tr then
      match tr with
      | [] =>
          (Raise (RuntimeError "torch.cat(): expected a non-empty list of Tensors"),
           e1)
      | _ :: _ =>
          if (List.length refs =? List.length preds)%nat then
            (Ok {| av_loss := F64.np_mean (map window_loss tr);
                   acc := accuracy_score refs preds;
                   f1 := f1_score refs preds;
                   fig := confusion_figure refs preds |},
             handed_back e (rng e1) (List.length (windows dbl)))
          else
            (Raise (ValueError "Found input variables with inconsistent numbers of samples"),
             e1)
      end
    else
      (Raise (ValueError "Expected input batch_size to match target batch_size"),
       e1).
Proof.
  cbv zeta.
  destruct (filewise_windows_spec (windows dbl) no_window (filewise_env e))
    as (e1 & Hloop & Hc & Hf).
  cbv zeta in Hloop. cbn [no_window losses preds refs app] in Hloop.
  exists e1. rewrite filewise_entries_windows.
  split; [exact Hloop|]. split; [exact Hc|]. split; [exact Hf|].
  unfold validate_filewise_outcome. fold (filewise_env e). fold no_window.
  rewrite filewise_entries_windows, Hloop.
  pose proof (filewise_trace_length (windows dbl) (filewise_env e)) as Hlen.
  destruct (forallb window_fits (filewise_trace (windows dbl) (filewise_env e)))
    eqn:Hfit; [|reflexivity].
  destruct (reached_all _ Hfit) as [Hr Hp]. rewrite Hr, Hp in *.
  destruct (filewise_trace (windows dbl) (filewise_env e)) as [|w tr];
    [reflexivity|].
  cbn [map preds refs losses torch_cat or_raise].
  unfold check_consistent_length.
  destruct (_ =? _)%nat; [|reflexivity].
  cbn [or_raise].
  destruct (filewise_env_spec e) as (E1 & E2 & E3 & E4 & E5 & E6 & E7 & E8).
  destruct Hf as (F1 & F2 & F3 & F4).
  rewrite E1 in Hc. rewrite E3 in F1. rewrite E5 in F2. rewrite E6 in F3.
  rewrite <- Hlen. clear Hloop Hlen Hfit Hr Hp E2 E4 E8.
  rewrite E7 in F4. clear E1 E3 E5 E6 E7.
  destruct e as [r [cc cs] [pm md [sc ss]] cl].
  destruct e1 as [r1 [cc1 cs1] [pm1 md1 [sc1 ss1]] cl1].
  cbn [calls cpc model sequential stashed current params mode] in Hc, F1, F2, F3, F4.
  subst.
  unfold cpc_pop_state, model_pop_state, pop_state, handed_back. cbn.
  unfold model_train, log, with_model, with_mode, with_seq, with_cpc, with_rng.
  cbn. do 2 f_equal. rewrite <- !app_assoc. reflexivity.
Qed.

Lemma validate_filewise_outcome_eq (dbl : list DblEntry) (e : Env) :
  validate_filewise dbl e =
  match fst (validate_filewise_outcome dbl e) with
  | Ok run => Ok (run, snd (validate_filewise_outcome dbl e))
  | Raise err => Raise err
  end.
Proof.
  unfold validate_filewise.
  destruct (validate_filewise_outcome dbl e) as [[run|err] e']; reflexivity.
Qed.

(** When [validate_filewise] returns, it hands the models back as they
    were, after one pass per window of the manifest. *)
Lemma validate_filewise_ok (dbl : list DblEntry) (e e' : Env) (run : FilewiseRun) :
  validate_filewise dbl e = Ok (run, e') ->
  exists r, e' = handed_back e r (List.length (windows dbl)).
Proof.
  rewrite validate_filewise_outcome_eq.
  destruct (validate_filewise_outcome_spec dbl e) as (e1 & _ & _ & _ & H).
  cbv zeta in H. rewrite H. clear H.
  destruct (forallb window_fits _); [|discriminate].
  destruct (filewise_trace _ _); [discriminate|].
  destruct (_ =? _)%nat; [|discriminate].
  cbn [fst snd]. intros H. injection H as _ <-. exists (rng e1). reflexivity.
Qed.

Lemma windows_nil_iff (dbl : list DblEntry) :
  forallb yields_nothing dbl = true <-> windows dbl = [].
Proof.
  unfold windows. induction dbl as [|d dbl IH]; [split; reflexivity|].
  cbn [forallb flat_map]. unfold yields_nothing at 1.
  destruct (file_stream d); cbn [andb app]; [exact IH|].
  split; discriminate.
Qed.

Lemma windows_filter (dbl : list DblEntry) :
  windows (filter (fun d => negb (yields_nothing d)) dbl) = windows dbl.
Proof.
  unfold windows. induction dbl as [|d dbl IH]; [reflexivity|].
  cbn [filter flat_map]. unfold yields_nothing at 1.
  destruct (file_stream d) as [|w ws] eqn:Hd; cbn [negb].
  - exact IH.
  - cbn [flat_map]. rewrite Hd, IH. reflexivity.
Qed.

(** Only the windows of a manifest count. *)
Lemma validate_filewise_windows (dbl dbl' : list DblEntry) (e : Env) :
  windows dbl = windows dbl' ->
  validate_filewise_outcome dbl e = validate_filewise_outcome dbl' e.
Proof.
  intros H. unfold validate_filewise_outcome.
  rewrite !filewise_entries_windows, H. reflexivity.
Qed.

(** With no window at all, [torch.cat] raises. *)
Lemma validate_filewise_no_window (dbl : list DblEntry) (e : Env) :
  windows dbl = [] ->
  validate_filewise dbl e =
  Raise (RuntimeError "torch.cat(): expected a non-empty list of Tensors").
Proof.
  intros H. unfold validate_filewise, validate_filewise_outcome.
  rewrite filewise_entries_windows, H. reflexivity.
Qed.

(** C6, as the code has it.  [validate_filewise] raises what [torch.cat]
    raises on an empty list exactly when no entry of the manifest yields a
    window.  The entries that yield nothing count for nothing otherwise:
    with them struck out of the manifest the call does the same.  The call
    returns exactly when some entry yields a window, [F.cross_entropy] takes
    every window (as many reference labels as prediction frames) and
    [accuracy_score] is handed as many references as predictions. *)
Theorem validate_filewise_fails_on_empty_manifest_only
  (dbl : list DblEntry) (e : Env) :
  (validate_filewise dbl e =
   Raise (RuntimeError "torch.cat(): expected a non-empty list of Tensors") <->
   forallb yields_nothing dbl = true) /\
  validate_filewise dbl e =
    validate_filewise (filter (fun d => negb (yields_nothing d)) dbl) e /\
  is_ok (validate_filewise dbl e) =
    let tr := filewise_trace (windows dbl) (filewise_env e) in
    negb (forallb yields_nothing dbl) && forallb window_fits tr &&
    (List.length (List.concat (map expected_ref tr)) =?
     List.length (List.concat (map expected_pred tr)))%nat.
Proof.
  pose proof (filewise_trace_length (windows dbl) (filewise_env e)) as Hlen.
  pose proof (windows_nil_iff dbl) as Hnil.
  assert (Hout : validate_filewise dbl e =
                 match fst (validate_filewise_outcome dbl e) with
                 | Ok run => Ok (run, snd (validate_filewise_outcome dbl e))
                 | Raise err => Raise err
                 end) by apply validate_filewise_outcome_eq.
  destruct (validate_filewise_outcome_spec dbl e) as (e1 & _ & _ & _ & H).
  cbv zeta in H. rewrite H in Hout. clear H.
  split; [|split].
  - rewrite Hnil. split.
    + intros Hr. rewrite Hr in Hout.
      destruct (forallb window_fits _); [|discriminate].
      destruct (filewise_trace _ _) as [|w tr].
      * destruct (windows dbl); [reflexivity | discriminate].
      * destruct (_ =? _)%nat; discriminate.
    + apply validate_filewise_no_window.
  - unfold validate_filewise.
    rewrite (@validate_filewise_windows
               (filter (fun d => negb (yields_nothing d)) dbl) dbl e
               (windows_filter dbl)).
    reflexivity.
  - cbv zeta. rewrite Hout. clear Hnil.
    destruct (forallb yields_nothing dbl) eqn:Hy.
    + apply windows_nil_iff in Hy. rewrite Hy in *.
      destruct (filewise_trace [] (filewise_env e)); [reflexivity | discriminate].
    + destruct (forallb window_fits _); [|reflexivity].
      destruct (filewise_trace _ _) as [|w tr].
      * exfalso. destruct (windows dbl) eqn:Hw; [|discriminate].
        apply windows_nil_iff in Hw. congruence.
      * destruct (_ =? _)%nat; reflexivity.
Qed.

(** The models as [validate_filewise] leaves them, when it returns and when
    it raises. *)
Lemma validate_filewise_outcome_frame (dbl : list DblEntry) (e : Env) :
  let e' := snd (validate_filewise_outcome dbl e) in
  match fst (validate_filewise_outcome dbl e) with
  | Ok run =>
      validate_filewise dbl e = Ok (run, e') /\
      calls e' = calls e ++ [ModelEval; CpcStash; ModelStash]
                         ++ forwards (List.length (windows dbl))
                         ++ [CpcPop; ModelPop; ModelTrain] /\
      cpc e' = cpc e /\
      sequential (model e') = sequential (model e) /\
      params (model e') = params (model e) /\
      mode (model e') = TrainMode
  | Raise err =>
      validate_filewise dbl e = Raise err /\
      exists passes,
        (passes <= List.length (windows dbl))%nat /\
        calls e' = calls e ++ [ModelEval; CpcStash; ModelStash]
                           ++ forwards passes /\
        stashed (cpc e') = current (cpc e) :: stashed (cpc e) /\
        stashed (sequential (model e')) =
          current (sequential (model e)) :: stashed (sequential (model e)) /\
        params (model e') = params (model e) /\
        mode (model e') = EvalMode
  end.
Proof.
  cbv zeta.
  rewrite (validate_filewise_outcome_eq dbl e).
  destruct (validate_filewise_outcome_spec dbl e)
    as (e1 & _ & Hc & (F1 & F2 & F3 & F4) & H).
  cbv zeta in H.
  pose proof (filewise_trace_length (windows dbl) (filewise_env e)) as Hlen.
  pose proof (reached_length (filewise_trace (windows dbl) (filewise_env e)))
    as Hreach.
  rewrite Hlen in Hreach.
  destruct (filewise_env_spec e) as (E1 & E2 & E3 & E4 & E5 & E6 & E7 & E8).
  rewrite E1, <- app_assoc in Hc. rewrite E3 in F1. rewrite E5 in F2.
  rewrite E6 in F3. rewrite E7 in F4.
  assert (Hraise : exists passes,
            (passes <= List.length (windows dbl))%nat /\
            calls e1 = calls e ++ [ModelEval; CpcStash; ModelStash]
                               ++ forwards passes /\
            stashed (cpc e1) = current (cpc e) :: stashed (cpc e) /\
            stashed (sequential (model e1)) =
              current (sequential (model e))
              :: stashed (sequential (model e)) /\
            params (model e1) = params (model e) /\
            mode (model e1) = EvalMode).
  { eexists. split; [exact Hreach|]. repeat split; assumption. }
  rewrite H. clear H.
  destruct (forallb window_fits _); [|split; [reflexivity | exact Hraise]].
  destruct (filewise_trace _ _) as [|w tr];
    [split; [reflexivity | exact Hraise]|].
  destruct (_ =? _)%nat; [|split; [reflexivity | exact Hraise]].
  cbn [fst snd]. repeat split.
Qed.

(** C8, as the code has it.  [validate] always returns.  When [validate] or
    [validate_filewise] returns, the calls it made on the two models are, in
    this order: eval, the two stashes, the forward passes, the two pops,
    train; the feature extractor and the classifier have the sequential
    state and the stack of stashed states they had on entry, the parameters
    are those on entry, and the classifier is in train mode.  When
    [validate_filewise] raises, it has made the two stashes and its forward
    passes, and neither pop: the exception leaves the state stashed on entry
    on top of both stacks and the classifier in eval mode. *)
Theorem evaluation_leaves_training_state_untouched :
  (forall (vs : Z) (ds : Cursor) (e : Env),
     exists loss ds' e' passes,
       validate vs ds e = Ok (loss, ds', e') /\
       calls e' = calls e ++ [ModelEval; CpcStash; ModelStash]
                          ++ forwards passes
                          ++ [CpcPop; ModelPop; ModelTrain] /\
       cpc e' = cpc e /\
       sequential (model e') = sequential (model e) /\
       params (model e') = params (model e) /\
       mode (model e') = TrainMode) /\
  (forall (dbl : list DblEntry) (e : Env),
     let e' := snd (validate_filewise_outcome dbl e) in
     match fst (validate_filewise_outcome dbl e) with
     | Ok run =>
         validate_filewise dbl e = Ok (run, e') /\
         calls e' = calls e ++ [ModelEval; CpcStash; ModelStash]
                            ++ forwards (List.length (windows dbl))
                            ++ [CpcPop; ModelPop; ModelTrain] /\
         cpc e' = cpc e /\
         sequential (model e') = sequential (model e) /\
         params (model e') = params (model e) /\
         mode (model e') = TrainMode
     | Raise err =>
         validate_filewise dbl e = Raise err /\
         exists passes,
           (passes <= List.length (windows dbl))%nat /\
           calls e' = calls e ++ [ModelEval; CpcStash; ModelStash]
                              ++ forwards passes /\
           stashed (cpc e') = current (cpc e) :: stashed (cpc e) /\
           stashed (sequential (model e')) =
             current (sequential (model e)) :: stashed (sequential (model e)) /\
           params (model e') = params (model e) /\
           mode (model e') = EvalMode
     end).
Proof.
  split.
  - intros vs ds e. pose proof (validate_spec vs ds e) as H. cbv zeta in H.
    eexists _, _, _, _. split; [exact H|]. repeat split.
  - intros dbl e. apply validate_filewise_outcome_frame.
Qed.


End FilewiseProperties.

Section TraceProperties.

Context {C : Collaborators}.

Lemma batches_app (a b : list Event) : batches (a ++ b) = batches a + batches b.
Proof.
  induction a as [|[] a IH]; cbn [batches app]; try rewrite IH; lia.
Qed.

Lemma final_saves_app (a b : list Event) :
  final_saves (a ++ b) = final_saves a + final_saves b.
Proof.
  induction a as [|[| | |[] ?] a IH]; cbn [final_saves app]; try rewrite IH; lia.
Qed.


Lemma validation_steps_app (a b : list Event) :
  validation_steps (a ++ b) = validation_steps a ++ validation_steps b.
Proof.
  induction a as [|[] a IH]; simpl; try rewrite IH; reflexivity.
Qed.

Lemma valid_losses_app (a b : list Event) :
  valid_losses (a ++ b) = valid_losses a ++ valid_losses b.
Proof.
  induction a as [|[] a IH]; simpl; try rewrite IH; reflexivity.
Qed.






End TraceProperties.

Section TrainProperties.

Context {C : Collaborators}.

Variable cad : Cadence.
Variable lr : bool.
Variables vdbl tdbl : list DblEntry.

(** The block under the validation guard, when it is entered and returns. *)
Lemma validation_event_spec (step : Z) (st st' : TrainState) :
  due step (val_every cad) = true ->
  validation_event cad vdbl tdbl step st = Ok st' ->
  exists vb,
    events st' = events st ++ vb /\
    ValidationBlock (val_every cad) step (best_val_loss st) vb (best_val_loss st') /\
    train_datastream st' = train_datastream st.
Proof.
  intros Hdue. unfold validation_event.
  pose proof (validate_spec (valid_steps cad) (valid_datastream st) (env st)) as Hv.
  cbv zeta in Hv. rewrite Hv. clear Hv. cbn [bind].
  set (v := F64.np_mean _).
  cbn [env emit with_env events].
  destruct (validate_filewise vdbl _) as [[run1 e1]|err]; [|discriminate].
  cbn [bind env emit with_env events].
  destruct (validate_filewise tdbl _) as [[run2 e2]|err]; [|discriminate].
  cbn [bind env emit with_env events best_val_loss].
  destruct (F64.ltb v (best_val_loss st)) eqn:Hlt; intros H; inversion H; subst;
    clear H; cbn [events best_val_loss train_datastream save emit with_env env].
  - exists [ValidLoss step v; Filewise ValidSplit step run1;
             Filewise TestSplit step run2; Save BestVal (model e2)].
    split; [|split; [|reflexivity]].
    + rewrite <- !app_assoc. reflexivity.
    + apply block_best; assumption.
  - exists [ValidLoss step v; Filewise ValidSplit step run1;
             Filewise TestSplit step run2].
    split; [|split; [|reflexivity]].
    + rewrite <- !app_assoc. reflexivity.
    + apply block_kept; assumption.
Qed.

(** One iteration of the loop of [train], when it returns: a line of
    [train.txt], the validation block, the periodic save. *)
Lemma train_step_spec (step : Z) (data : Data) (labels : Labels)
  (st st' : TrainState) :
  train_step cad lr vdbl tdbl step data labels st = Ok st' ->
  exists loss vb,
    events st' =
      events st ++ TrainLoss step loss :: vb ++
      (if due step (save_every cad)
       then [Save (StepTag step) (model (env st'))] else []) /\
    ValidationBlock (val_every cad) step (best_val_loss st) vb (best_val_loss st') /\
    train_datastream st' = train_datastream st.
Proof.
  unfold train_step.
  destruct (cpc_call data (env st)) as [features e1].
  destruct (model_call features e1) as [pred e2].
  destruct (model_call features e2) as [output e3].
  destruct (optimizer_step _ _ _ _ _) as [opt p].
  set (st1 := emit _ _).
  assert (Hev : events st1 = events st ++ [TrainLoss step
            (cross_entropy output (resample_1d labels (shape1 pred)))])
    by reflexivity.
  assert (Hbest : best_val_loss st1 = best_val_loss st) by reflexivity.
  assert (Hcur : train_datastream st1 = train_datastream st) by reflexivity.
  clearbody st1.
  destruct (due step (val_every cad)) eqn:Hdue.
  - destruct (validation_event cad vdbl tdbl step st1) as [st2|err] eqn:Hve;
      [|discriminate].
    destruct (validation_event_spec step st1 Hdue Hve) as (vb & Hvb & Hblock & Hc).
    cbn [bind]. intros H. inversion H; subst; clear H.
    exists (cross_entropy output (resample_1d labels (shape1 pred))), vb.
    rewrite Hbest in Hblock.
    destruct (due step (save_every cad)); cbn [save emit events best_val_loss
      train_datastream env]; (split; [|split; [exact Hblock | congruence]]).
    + rewrite Hvb, Hev, <- ?app_assoc. reflexivity.
    + rewrite Hvb, Hev, <- ?app_assoc, ?app_nil_r. reflexivity.
  - cbn [bind]. intros H. inversion H; subst; clear H.
    exists (cross_entropy output (resample_1d labels (shape1 pred))), [].
    destruct (due step (save_every cad)); cbn [save emit events best_val_loss
      train_datastream env];
      (split; [|split; [rewrite Hbest; apply block_skipped; exact Hdue
                      | congruence]]).
    + rewrite Hev, <- ?app_assoc. reflexivity.
    + rewrite Hev, <- ?app_assoc. reflexivity.
Qed.

Lemma pull_train_spec (st st1 : TrainState) (data : Data) (labels : Labels) :
  pull_train st = Some (data, labels, st1) ->
  events st1 = events st /\
  best_val_loss st1 = best_val_loss st /\
  exists r,
    next_batch (train_datastream st) (rng (env st)) =
    Some (data, labels, train_datastream st1, r).
Proof.
  unfold pull_train.
  destruct (next_batch _ _) as [[[[d l] c] r]|]; [|discriminate].
  intros H. inversion H; subst. repeat split. exists r. reflexivity.
Qed.

(** The loop of [train], when it returns, went through the iterations
    described by [Run]. *)
Lemma train_loop_Run (step : Z) (st st' : TrainState) :
  train_loop cad lr vdbl tdbl step st = Ok st' ->
  Run cad lr vdbl tdbl step st st'.
Proof.
  funelim (train_loop cad lr vdbl tdbl step st); intros Hrun.
  - inversion Hrun; subst. apply run_exhausted. assumption.
  - discriminate.
  - inversion Hrun; subst. eapply run_break; eassumption.
  - eapply run_next; try eassumption. apply H. assumption.
Qed.

(** The measures of the events of one iteration. *)
Lemma step_block_measures (step : Z) (best best' : F64.float) (loss : F64.float)
  (vb : list Event) (m : Classifier) :
  ValidationBlock (val_every cad) step best vb best' ->
  let evs := TrainLoss step loss :: vb ++
             (if due step (save_every cad) then [Save (StepTag step) m] else []) in
  batches evs = 1 /\
  final_saves evs = 0 /\
  periodic_tags evs = (if due step (save_every cad) then [step] else []) /\
  validation_steps evs = (if due step (val_every cad) then [step] else []) /\
  rewritten evs = false.
Proof.
  intros Hb. cbv zeta.
  destruct Hb as [Hd | v r1 r2 Hd Hlt | v r1 r2 m' Hd Hlt]; rewrite Hd;
    destruct (due step (save_every cad)); repeat split.
Qed.


End TrainProperties.

(** ** The order of binary64 numbers *)

Section FloatOrder.

Ltac float_order :=
  repeat match goal with
  | |- context [Z.compare ?a ?b] => destruct (Z.compare_spec a b)
  | H : context [Z.compare ?a ?b] |- _ => destruct (Z.compare_spec a b)
  | |- context [Pos.compare_cont Eq ?a ?b] =>
      change (Pos.compare_cont Eq a b) with (Pos.compare a b)
  | H : context [Pos.compare_cont Eq ?a ?b] |- _ =>
      change (Pos.compare_cont Eq a b) with (Pos.compare a b) in H
  | |- context [Pos.compare ?a ?b] => destruct (Pos.compare_spec a b)
  | H : context [Pos.compare ?a ?b] |- _ => destruct (Pos.compare_spec a b)
  end; simpl in *; subst; try congruence; try lia.

Lemma ltb_trans (x y z : F64.float) :
  F64.ltb x y = true -> F64.ltb y z = true -> F64.ltb x z = true.
Proof.
  unfold F64.ltb, SFltb, SFcompare.
  destruct x as [sx|sx| |sx mx ex], y as [sy|sy| |sy my ey],
           z as [sz|sz| |sz mz ez];
    try destruct sx; try destruct sy; try destruct sz; simpl; try congruence;
    intros; float_order.
Qed.


Lemma finite_below_inf (x : F64.float) :
  F64.is_finite x = true -> F64.ltb x F64.inf = true.
Proof.
  destruct x as [s|s| |s m e]; simpl; try discriminate; intros _;
    destruct s; reflexivity.
Qed.





End FloatOrder.

(** ** The best-validation checkpoint *)

Section BestCheckpoint.

Context {C : Collaborators}.




Lemma periodic_save_inert (b : bool) (step : Z) (m : Classifier) :
  let sv := if b then [Save (StepTag step) m] else [] in
  rewritten sv = false /\ valid_losses sv = [] /\ best_writes sv = [].
Proof. destruct b; repeat split. Qed.


End BestCheckpoint.

(** ** Whole runs *)

Section Runs.

Context {C : Collaborators}.

(** After the defaults neither period is [0]: the two [%] of the loop never
    divide by zero. *)
Lemma cadence_periods_nonzero (FLAGS : Flags) :
  val_every (cadence FLAGS) <> 0 /\ save_every (cadence FLAGS) <> 0.
Proof.
  assert (Hv : val_every (cadence FLAGS) <> 0).
  { unfold cadence, from_flag, not_set. cbn [val_every].
    destruct (FLAGS_val_every FLAGS) as [v|]; [|lia].
    destruct (v =? 0) eqn:Hz; [lia | apply Z.eqb_neq; exact Hz]. }
  split; [exact Hv|].
  unfold cadence in *. cbn [val_every save_every] in *.
  unfold from_flag at 1, not_set.
  destruct (FLAGS_save_every FLAGS) as [v|]; [|exact Hv].
  destruct (v =? 0) eqn:Hz; [exact Hv | apply Z.eqb_neq; exact Hz].
Qed.

Lemma initial_state_spec (FLAGS : Flags) (s : Setup) (arch : Arch) :
  events (initial_state FLAGS s arch) = [] /\
  best_val_loss (initial_state FLAGS s arch) = F64.inf /\
  train_datastream (initial_state FLAGS s arch) = setup_train s.
Proof.
  unfold initial_state. destruct (construct arch) as [p q]. repeat split.
Qed.

(** A run that returns chose an architecture, left the loop, and saved. *)
Lemma train_inv (FLAGS : Flags) (s : Setup) (final : TrainState) :
  train FLAGS s = Ok final ->
  exists arch st,
    select_model (FLAGS_model (effective_flags FLAGS)) = Ok arch /\
    Run (cadence (effective_flags FLAGS))
        (FLAGS_lr_schedule (effective_flags FLAGS))
        (setup_valid_dbl s) (setup_test_dbl s) 0
        (initial_state (effective_flags FLAGS) s arch) st /\
    final = save NoSuffix st.
Proof.
  unfold train.
  destruct (select_model _) as [arch|err]; [|discriminate]. cbn [bind].
  destruct (train_loop _ _ _ _ _ _) as [st|err] eqn:Hloop; [|discriminate].
  cbn [bind]. intros H. inversion H; subst.
  exists arch, st. repeat split. apply train_loop_Run. exact Hloop.
Qed.




(** C2, where the code departs from it.  "linear" is one of the values the
    flag accepts, and a run with it raises [NameError] before the loop is
    entered: the model is constructed, and the chain of tests that follows
    starts over at "baseline" and falls through to its [else]. *)
Theorem linear_model_raises_NameError :
  In "linear"%string model_enum /\
  forall (steps : Z) (valid_steps val_every save_every : option Z)
         (lr_schedule : bool) (s : Setup),
    train {| FLAGS_model := "linear"; FLAGS_steps := steps;
             FLAGS_valid_steps := valid_steps; FLAGS_val_every := val_every;
             FLAGS_save_every := save_every; FLAGS_lr_schedule := lr_schedule;
             FLAGS_dry_run := false |} s =
    Raise (NameError "Model name not found").
Proof.
  split; [left; reflexivity|]. intros. reflexivity.
Qed.

(** The eight other values of the flag select their architecture. *)
Lemma select_model_other_values (name : string) :
  In name model_enum -> name <> "linear"%string ->
  exists arch, select_model name = Ok arch.
Proof.
  intros Hin Hne. simpl in Hin.
  repeat (destruct Hin as [<-|Hin];
          [first [congruence | eexists; reflexivity]|]).
  contradiction.
Qed.

End Runs.

(** ** The scenario *)


Lemma scenario_run_A :
  @train Scenario.collaborators Scenario.flags_A Scenario.setup =
  Ok Scenario.final_A.
Proof. reflexivity. Qed.






(** C4, [valid_steps = 1] on a loader that never runs dry: two batches are
    pulled and two losses averaged. *)
Theorem validate_takes_valid_steps_plus_one_batches :
  exists loss,
    @validate Scenario.collaborators 1 Scenario.endless Scenario.env0 =
    Ok (loss, Scenario.mkLoader 2 None, handed_back Scenario.env0 7 2) /\
    List.length
      (fst (fst (@validate_loop Scenario.collaborators 1 0 Scenario.endless []
                   (validation_env Scenario.env0)))) = 2%nat.
Proof. eexists. split; reflexivity. Qed.

(** C6, a manifest of a file of two windows and a file without any frame:
    [validate_filewise] returns. *)
Lemma validate_filewise_skips_empty_file :
  @file_stream Scenario.collaborators Scenario.file_empty = [] /\
  is_ok (@validate_filewise Scenario.collaborators
           [Scenario.file_a; Scenario.file_empty] Scenario.env0) = true.
Proof. split; reflexivity. Qed.

(** C8, a manifest of one file of four frames, for which the classifier
    gives one prediction frame: the four labels are not resampled,
    [F.cross_entropy] refuses them, and the exception leaves both models
    with the state stashed on entry still on their stacks, their sequential
    state moved on by the forward pass, and the classifier in eval mode. *)
Lemma filewise_raise_leaves_state_stashed :
  @validate_filewise_outcome Scenario.collaborators [Scenario.file_short]
    Scenario.env0 =
  (Raise (ValueError "Expected input batch_size to match target batch_size"),
   Scenario.env_short) /\
  @validate_filewise Scenario.collaborators [Scenario.file_short] Scenario.env0 =
  Raise (ValueError "Expected input batch_size to match target batch_size") /\
  calls Scenario.env_short =
    [ModelEval; CpcStash; ModelStash; CpcForward; ModelForward] /\
  cpc Scenario.env0 = {| current := 3; stashed := [] |} /\
  cpc Scenario.env_short = {| current := 4; stashed := [3] |} /\
  sequential (model Scenario.env0) = {| current := 5; stashed := [] |} /\
  sequential (model Scenario.env_short) = {| current := 6; stashed := [5] |} /\
  mode (model Scenario.env_short) = EvalMode.
Proof. repeat split. Qed.

(** The same window, as the loops leave the accumulators: one prediction,
    the four labels of the window as they came, no loss. *)
Lemma scenario_single_frame_window_keeps_its_labels :
  fst (fst (for_each (@filewise_entry Scenario.collaborators)
              [Scenario.file_short] (no_window, filewise_env Scenario.env0))) =
  {| losses := []; preds := [[0]]; refs := [[0; 1; 2; 0]] |}.
Proof. reflexivity. Qed.



(** C3, the order of the additions: from eight losses on, numpy's sum is
    not the sum from left to right.  The sum of 0.1, ..., 0.8 is 3.6 in
    numpy's order and 3.5999999999999996 from left to right. *)
Lemma np_sum_of_eight_is_not_left_to_right :
  F64.np_sum Scenario.tenths = S754_finite false 8106479329266893 (-51) /\
  fold_left F64.add Scenario.tenths F64.zero =
    S754_finite false 8106479329266892 (-51).
Proof. split; reflexivity. Qed.

(** * More of [train.py] *)

(** ** Flags and model selection *)

Section FlagProperties.

Context {C : Collaborators}.

(** X1.  Once the three defaults of [train] are in, neither of the two
    periods nor [valid_steps] is [0], whatever the flags were (a flag given
    as [0] counts as not given): the two [%] of the loop never divide by
    zero. *)
Theorem cadence_never_zero (FLAGS : Flags) :
  val_every (cadence FLAGS) <> 0 /\
  save_every (cadence FLAGS) <> 0 /\
  valid_steps (cadence FLAGS) <> 0.
Proof.
  destruct (cadence_periods_nonzero FLAGS) as [Hv Hs].
  split; [exact Hv|]. split; [exact Hs|].
  unfold cadence, from_flag, not_set. cbn [valid_steps].
  destruct (FLAGS_valid_steps FLAGS) as [v|]; [|lia].
  destruct (v =? 0) eqn:Hz; [lia | apply Z.eqb_neq; exact Hz].
Qed.


End FlagProperties.

(** ** The number of batches [validate] takes *)

Section ValidateBound.

Context {C : Collaborators}.

Lemma validate_loop_bound (vs step : Z) (ds : Cursor) (l : list F64.float)
  (e : Env) :
  Z.of_nat (List.length (fst (fst (validate_loop vs step ds l e)))) <=
  Z.of_nat (List.length l) + Z.max (vs - step) 0 + 1.
Proof.
  funelim (validate_loop vs step ds l e).
  - simpl. lia.
  - destruct (validate_step data labels (with_rng r e)) as [loss e'].
    simpl. rewrite length_app. simpl. lia.
  - destruct (validate_step data labels (with_rng r e)) as [loss e'].
    specialize (H loss e'). rewrite length_app in H. simpl in H. lia.
Qed.

(** X3.  Whatever the source and whatever [valid_steps], [validate] makes
    at most [max(valid_steps, 0) + 1] passes through the models; it makes one
    for any [valid_steps <= 0] as soon as the source has a batch. *)
Theorem validate_passes_bounded (vs : Z) (ds : Cursor) (e : Env) :
  exists loss ds' passes,
    validate vs ds e = Ok (loss, ds', handed_back e (rng e) passes) /\
    Z.of_nat passes <= Z.max vs 0 + 1 /\
    match next_batch ds (seeded 42) with
    | None => passes = 0%nat
    | Some _ => (1 <= passes)%nat
    end.
Proof.
  pose proof (validate_spec vs ds e) as Hv. cbv zeta in Hv.
  pose proof (validate_loop_bound vs 0 ds [] (validation_env e)) as Hb.
  destruct (validate_loop_spec vs 0 ds [] (validation_env e))
    as (new & Hl & _ & _ & Hn).
  change (rng (validation_env e)) with (seeded 42) in Hn.
  simpl in Hl, Hb.
  eexists _, _, _. split; [exact Hv|]. split; [lia|].
  rewrite Hl. destruct (next_batch ds (seeded 42)).
  - destruct new; [congruence | simpl; lia].
  - destruct Hn as [-> _]. reflexivity.
Qed.

End ValidateBound.

(** ** One iteration of the loop of [train], the models followed *)

Section StepProperties.

Context {C : Collaborators}.

Lemma train_steps_app (a b : list Event) :
  train_steps (a ++ b) = train_steps a ++ train_steps b.
Proof.
  induction a as [|[] a IH]; simpl; try rewrite IH; reflexivity.
Qed.

Lemma filewise_steps_app (a b : list Event) :
  filewise_steps (a ++ b) = filewise_steps a ++ filewise_steps b.
Proof.
  induction a as [|[] a IH]; simpl; try rewrite IH; reflexivity.
Qed.

Lemma suffixes_app (a b : list Event) :
  suffixes (a ++ b) = suffixes a ++ suffixes b.
Proof.
  induction a as [|[] a IH]; simpl; try rewrite IH; reflexivity.
Qed.

Lemma saved_models_app (a b : list Event) :
  saved_models (a ++ b) = saved_models a ++ saved_models b.
Proof.
  induction a as [|[] a IH]; simpl; try rewrite IH; reflexivity.
Qed.

Variable cad : Cadence.
Variable lr : bool.
Variables vdbl tdbl : list DblEntry.

(** The validation block hands the models and the optimiser back as it
    found them, the classifier in train mode; what it saves is the
    classifier it hands back. *)
Lemma validation_event_env (step : Z) (st st' : TrainState) :
  validation_event cad vdbl tdbl step st = Ok st' ->
  cpc (env st') = cpc (env st) /\
  sequential (model (env st')) = sequential (model (env st)) /\
  params (model (env st')) = params (model (env st)) /\
  mode (model (env st')) = TrainMode /\
  optimizer st' = optimizer st /\
  exists evs,
    events st' = events st ++ evs /\
    Forall (fun m => m = model (env st')) (saved_models evs).
Proof.
  unfold validation_event.
  pose proof (validate_spec (valid_steps cad) (valid_datastream st) (env st)) as Hv.
  cbv zeta in Hv. rewrite Hv. clear Hv. cbn [bind env emit with_env events].
  destruct (validate_filewise vdbl _) as [[run1 e1]|err] eqn:H1; [|discriminate].
  apply validate_filewise_ok in H1. destruct H1 as (r1 & ->).
  cbn [bind env emit with_env events].
  destruct (validate_filewise tdbl _) as [[run2 e2]|err] eqn:H2; [|discriminate].
  apply validate_filewise_ok in H2. destruct H2 as (r2 & ->).
  cbn [bind env emit with_env events best_val_loss].
  destruct (F64.ltb _ _); intros H; inversion H; subst; clear H;
    cbn [env save emit with_env events optimizer handed_back cpc model
         with_mode sequential params mode];
    repeat (split; [reflexivity|]);
    eexists; (split; [rewrite <- !app_assoc; reflexivity|]);
    cbn [app saved_models]; repeat constructor.
Qed.

(** What one iteration leaves in the models and the optimiser is what the
    two forward passes and the optimiser step made of them: the periodic
    events add nothing to it and take nothing from it. *)
Lemma train_step_env (step : Z) (data : Data) (labels : Labels)
  (st st' : TrainState) :
  train_step cad lr vdbl tdbl step data labels st = Ok st' ->
  let e1 := snd (cpc_call data (env st)) in
  let features := fst (cpc_call data (env st)) in
  let pred := fst (model_call features e1) in
  let e2 := snd (model_call features e1) in
  let output := fst (model_call features e2) in
  let e3 := snd (model_call features e2) in
  let update :=
    optimizer_step lr (optimizer st) (params (model e3)) output
      (resample_1d labels (shape1 pred)) in
  cpc (env st') = cpc e3 /\
  sequential (model (env st')) = sequential (model e3) /\
  params (model (env st')) = snd update /\
  optimizer st' = fst update /\
  mode (model (env st')) =
    (if due step (val_every cad) then TrainMode else mode (model (env st))) /\
  exists evs,
    events st' = events st ++ evs /\
    Forall (fun m => m = model (env st')) (saved_models evs).
Proof.
  cbv zeta. unfold train_step.
  destruct (model_call_spec (fst (cpc_call data (env st)))
              (snd (cpc_call data (env st)))) as [_ (_ & _ & _ & Hm2)].
  destruct (cpc_call_spec data (env st)) as [_ (_ & _ & _ & Hm1)].
  destruct (cpc_call data (env st)) as [features e1]. cbn [fst snd] in *.
  destruct (model_call_spec features (snd (model_call features e1)))
    as [_ (_ & _ & _ & Hm3)].
  destruct (model_call features e1) as [pred e2]. cbn [fst snd] in *.
  destruct (model_call features e2) as [output e3]. cbn [fst snd] in *.
  destruct (optimizer_step _ _ _ _ _) as [opt p]. cbn [fst snd].
  set (st1 := emit _ _).
  destruct (due step (val_every cad)).
  - destruct (validation_event cad vdbl tdbl step st1) as [st2|err] eqn:Hve;
      [|discriminate].
    destruct (validation_event_env _ _ Hve)
      as (V1 & V2 & V3 & V4 & V5 & evs & V6 & V7).
    unfold st1 in V1, V2, V3, V5, V6.
    cbn [emit env cpc model with_model with_params sequential params
         optimizer events] in V1, V2, V3, V5, V6.
    cbn [bind].
    destruct (due step (save_every cad)); intros H; injection H as <-;
      cbn [save emit env optimizer events];
      (split; [exact V1|]); (split; [exact V2|]); (split; [exact V3|]);
      (split; [exact V5|]); (split; [exact V4|]).
    + eexists. split; [rewrite V6, <- !app_assoc; reflexivity|].
      rewrite !saved_models_app. cbn [saved_models app].
      apply Forall_app. split; [exact V7 | repeat constructor].
    + eexists. split; [rewrite V6, <- !app_assoc; reflexivity|].
      rewrite !saved_models_app. cbn [saved_models app]. exact V7.
  - cbn [bind]. intros H. injection H as <-.
    destruct (due step (save_every cad));
      cbn [save emit events env st1 cpc model with_model with_params
           sequential params mode optimizer];
      unfold st1; cbn [save emit events env cpc model with_model with_params
           sequential params mode optimizer];
      (repeat (split; [first [reflexivity | congruence]|]));
      eexists; (split; [rewrite <- ?app_assoc; reflexivity|]);
      cbn [app saved_models]; repeat constructor.
Qed.

End StepProperties.

Section StepTheorems.

Context {C : Collaborators}.

(** X4.  Validation and checkpointing do not steer training within an
    iteration: run from the same state on the same batch, an iteration with
    the periodic events due and one without them (other periods, other
    manifests) leave the same feature-extractor state, the same classifier
    parameters and sequential state and the same optimiser state. *)
Theorem periodic_events_leave_training_state
  (cad cad' : Cadence) (lr : bool) (vdbl tdbl vdbl' tdbl' : list DblEntry)
  (step : Z) (data : Data) (labels : Labels) (st st1 st2 : TrainState) :
  train_step cad lr vdbl tdbl step data labels st = Ok st1 ->
  train_step cad' lr vdbl' tdbl' step data labels st = Ok st2 ->
  cpc (env st1) = cpc (env st2) /\
  sequential (model (env st1)) = sequential (model (env st2)) /\
  params (model (env st1)) = params (model (env st2)) /\
  optimizer st1 = optimizer st2.
Proof.
  intros H1 H2.
  apply train_step_env in H1. apply train_step_env in H2.
  cbv zeta in H1, H2.
  destruct H1 as (A1 & A2 & A3 & A4 & _).
  destruct H2 as (B1 & B2 & B3 & B4 & _).
  repeat split; congruence.
Qed.

(** X5.  Whatever an iteration saves, under [.bestval] or under [.step<N>],
    is the classifier the loop goes on with: the two checkpoints of a step
    hold the same model, and it is the trained one. *)
Theorem step_saves_the_model_it_continues_with
  (cad : Cadence) (lr : bool) (vdbl tdbl : list DblEntry)
  (step : Z) (data : Data) (labels : Labels) (st st' : TrainState) :
  train_step cad lr vdbl tdbl step data labels st = Ok st' ->
  exists evs,
    events st' = events st ++ evs /\
    Forall (fun m => m = model (env st')) (saved_models evs).
Proof.
  intros H. apply train_step_env in H. cbv zeta in H.
  destruct H as (_ & _ & _ & _ & _ & H). exact H.
Qed.

End StepTheorems.

(** ** Whole runs, the events followed *)

Section RunProperties.

Context {C : Collaborators}.

Variable cad : Cadence.
Variable lr : bool.
Variables vdbl tdbl : list DblEntry.

(** More measures of the events of one iteration. *)
Lemma step_block_readers (step : Z) (best best' : F64.float) (loss : F64.float)
  (vb : list Event) (m : Classifier)
  (Hb : ValidationBlock (val_every cad) step best vb best') :
  let evs := TrainLoss step loss :: vb ++
             (if due step (save_every cad) then [Save (StepTag step) m] else []) in
  train_steps evs = [step] /\
  filewise_steps evs =
    flat_map (fun s => [(ValidSplit, s); (TestSplit, s)]) (validation_steps evs) /\
  (due step (val_every cad) = false -> due step (save_every cad) = false ->
   suffixes evs = [] /\ validation_steps evs = [] /\ best' = best).
Proof.
  cbv zeta.
  destruct Hb as [Hd | v r1 r2 Hd Hlt | v r1 r2 m' Hd Hlt];
    destruct (due step (save_every cad)); repeat split; congruence.
Qed.

Lemma pull_train_env (st st1 : TrainState) (data : Data) (labels : Labels) :
  pull_train st = Some (data, labels, st1) ->
  model (env st1) = model (env st) /\ cpc (env st1) = cpc (env st).
Proof.
  unfold pull_train.
  destruct (next_batch _ _) as [[[[d l] c] r]|]; [|discriminate].
  intros H. inversion H; subst. split; reflexivity.
Qed.

(** The lines of [train.txt] are numbered from the step the loop is entered
    at, without a gap, and there are at most [steps - step + 1] of them. *)
Lemma Run_train_steps (step : Z) (st st' : TrainState) :
  Run cad lr vdbl tdbl step st st' ->
  exists evs n,
    events st' = events st ++ evs /\
    train_steps evs = ints_from step n /\
    batches evs = Z.of_nat n /\
    Z.of_nat n <= Z.max (steps cad - step) 0 + 1 /\
    final_saves evs = 0 /\
    filewise_steps evs =
      flat_map (fun s => [(ValidSplit, s); (TestSplit, s)]) (validation_steps evs).
Proof.
  intros Hrun.
  induction Hrun as [step st Hpull
                    | step st data labels st1 st2 Hpull Hstep Hge
                    | step st data labels st1 st2 st3 Hpull Hstep Hlt Hrun IH].
  - exists [], 0%nat. rewrite app_nil_r. repeat split. simpl. lia.
  - destruct (pull_train_spec _ Hpull) as (Hev & _ & _).
    destruct (train_step_spec _ _ _ _ _ _ _ _ Hstep) as (loss & vb & Hevs & Hblock & _).
    destruct (step_block_measures cad loss (model (env st2)) Hblock)
      as (M1 & M2 & _).
    destruct (step_block_readers loss (model (env st2)) Hblock) as (R1 & R2 & _).
    eexists _, 1%nat. split; [rewrite Hevs, Hev; reflexivity|].
    rewrite R1, M1, M2. repeat split; try exact R2. simpl. lia.
  - destruct (pull_train_spec _ Hpull) as (Hev & _ & _).
    destruct (train_step_spec _ _ _ _ _ _ _ _ Hstep) as (loss & vb & Hevs & Hblock & _).
    destruct (step_block_measures cad loss (model (env st2)) Hblock)
      as (M1 & M2 & _).
    destruct (step_block_readers loss (model (env st2)) Hblock) as (R1 & R2 & _).
    destruct IH as (evs & n & E0 & E1 & E2 & E3 & E4 & E5).
    eexists _, (S n). split; [rewrite E0, Hevs, Hev, <- app_assoc; reflexivity|].
    rewrite train_steps_app, batches_app, final_saves_app, filewise_steps_app,
      validation_steps_app, flat_map_app, R1, M1, M2, E1, E2, E4, <- R2, <- E5.
    repeat split; lia.
Qed.

(** A stretch of steps at which nothing is due: the loop saves nothing,
    validates nothing and leaves the record alone. *)
Lemma Run_quiet (step : Z) (st st' : TrainState) :
  Run cad lr vdbl tdbl step st st' ->
  (forall t, step <= t -> t <= Z.max step (steps cad) ->
     due t (val_every cad) = false /\ due t (save_every cad) = false) ->
  exists evs,
    events st' = events st ++ evs /\
    suffixes evs = [] /\ validation_steps evs = [] /\
    best_val_loss st' = best_val_loss st.
Proof.
  intros Hrun.
  induction Hrun as [step st Hpull
                    | step st data labels st1 st2 Hpull Hstep Hge
                    | step st data labels st1 st2 st3 Hpull Hstep Hlt Hrun IH];
    intros Hq.
  - exists []. rewrite app_nil_r. repeat split.
  - destruct (pull_train_spec _ Hpull) as (Hev & Hbest & _).
    destruct (train_step_spec _ _ _ _ _ _ _ _ Hstep) as (loss & vb & Hevs & Hblock & _).
    destruct (step_block_readers loss (model (env st2)) Hblock) as (_ & _ & R3).
    destruct (Hq step) as [Q1 Q2]; try lia.
    destruct (R3 Q1 Q2) as (S1 & S2 & S3).
    eexists. split; [rewrite Hevs, Hev; reflexivity|].
    repeat split; congruence.
  - destruct (pull_train_spec _ Hpull) as (Hev & Hbest & _).
    destruct (train_step_spec _ _ _ _ _ _ _ _ Hstep) as (loss & vb & Hevs & Hblock & _).
    destruct (step_block_readers loss (model (env st2)) Hblock) as (_ & _ & R3).
    destruct (Hq step) as [Q1 Q2]; try lia.
    destruct (R3 Q1 Q2) as (S1 & S2 & S3).
    destruct IH as (evs & E0 & E1 & E2 & E3).
    { intros t Ht1 Ht2. apply Hq; lia. }
    eexists. split; [rewrite E0, Hevs, Hev, <- app_assoc; reflexivity|].
    rewrite suffixes_app, validation_steps_app, S1, S2, E1, E2.
    repeat split; congruence.
Qed.

(** An iteration keeps the classifier at rest. *)
Lemma train_step_at_rest (step : Z) (data : Data) (labels : Labels)
  (st st' : TrainState) :
  at_rest (model (env st)) ->
  train_step cad lr vdbl tdbl step data labels st = Ok st' ->
  at_rest (model (env st')).
Proof.
  intros [Hmode Hstash] Hstep.
  apply train_step_env in Hstep. cbv zeta in Hstep.
  destruct Hstep as (_ & A2 & _ & _ & A5 & _).
  destruct (cpc_call_spec data (env st)) as [_ (_ & F1 & _)].
  destruct (model_call_spec (fst (cpc_call data (env st)))
              (snd (cpc_call data (env st)))) as [_ (_ & F2 & _)].
  destruct (model_call_spec (fst (cpc_call data (env st)))
              (snd (model_call (fst (cpc_call data (env st)))
                               (snd (cpc_call data (env st))))))
    as [_ (_ & F3 & _)].
  split.
  - rewrite A5. destruct (due step (val_every cad)); [reflexivity | exact Hmode].
  - rewrite A2. congruence.
Qed.

(** Every classifier the loop saves is at rest. *)
Lemma Run_at_rest (step : Z) (st st' : TrainState) :
  Run cad lr vdbl tdbl step st st' ->
  at_rest (model (env st)) ->
  at_rest (model (env st')) /\
  exists evs,
    events st' = events st ++ evs /\
    Forall at_rest (saved_models evs).
Proof.
  intros Hrun.
  induction Hrun as [step st Hpull
                    | step st data labels st1 st2 Hpull Hstep Hge
                    | step st data labels st1 st2 st3 Hpull Hstep Hlt Hrun IH];
    intros Hrest.
  - split; [exact Hrest|]. exists []. rewrite app_nil_r. split; constructor.
  - destruct (pull_train_spec _ Hpull) as (Hev & _ & _).
    destruct (pull_train_env _ Hpull) as (Hm & _).
    rewrite <- Hm in Hrest.
    pose proof (train_step_at_rest _ _ _ _ Hrest Hstep) as Hrest2.
    split; [exact Hrest2|].
    apply train_step_env in Hstep. cbv zeta in Hstep.
    destruct Hstep as (_ & _ & _ & _ & _ & evs & E0 & E1).
    exists evs. split; [rewrite E0, Hev; reflexivity|].
    eapply Forall_impl; [|exact E1]. intros m ->. exact Hrest2.
  - destruct (pull_train_spec _ Hpull) as (Hev & _ & _).
    destruct (pull_train_env _ Hpull) as (Hm & _).
    rewrite <- Hm in Hrest.
    pose proof (train_step_at_rest _ _ _ _ Hrest Hstep) as Hrest2.
    destruct (IH Hrest2) as (Hrest3 & evs3 & E3 & E4).
    split; [exact Hrest3|].
    apply train_step_env in Hstep. cbv zeta in Hstep.
    destruct Hstep as (_ & _ & _ & _ & _ & evs & E0 & E1).
    exists (evs ++ evs3). split; [rewrite E3, E0, Hev, <- app_assoc; reflexivity|].
    rewrite saved_models_app. apply Forall_app. split; [|exact E4].
    eapply Forall_impl; [|exact E1]. intros m ->. exact Hrest2.
Qed.

End RunProperties.

(** ** The batches of a run *)

Section TrainingBatches.

Context {C : Collaborators}.

Variable cad : Cadence.
Variable lr : bool.
Variables vdbl tdbl : list DblEntry.

(** The loop entered at [step] pulls its batches from the training loader
    one after the other, [steps - step + 1] of them (one when [step] is at
    or beyond the budget) unless the loader runs dry before. *)
Lemma Run_pulls (step : Z) (st st' : TrainState) :
  Run cad lr vdbl tdbl step st st' ->
  exists n evs,
    Pulled n (train_datastream st) (train_datastream st') /\
    events st' = events st ++ evs /\
    batches evs = Z.of_nat n /\
    (Z.of_nat n = Z.max (steps cad - step) 0 + 1 \/
     Z.of_nat n < Z.max (steps cad - step) 0 + 1 /\
     next_batch (train_datastream st') (rng (env st')) = None).
Proof.
  intros Hrun.
  induction Hrun as [step st Hpull
                    | step st data labels st1 st2 Hpull Hstep Hge
                    | step st data labels st1 st2 st3 Hpull Hstep Hlt Hrun IH].
  - exists 0%nat, []. rewrite app_nil_r.
    split; [apply pulled_none|]. split; [reflexivity|]. split; [reflexivity|].
    right. split; [simpl; lia|].
    unfold pull_train in Hpull.
    destruct (next_batch _ _) as [[[[d l] c] r]|]; [discriminate | reflexivity].
  - destruct (pull_train_spec _ Hpull) as (Hev & _ & r & Hnext).
    destruct (train_step_spec _ _ _ _ _ _ _ _ Hstep)
      as (loss & vb & Hevs & Hblock & Hc).
    destruct (step_block_measures cad loss (model (env st2)) Hblock)
      as (M1 & _).
    exists 1%nat. eexists.
    split; [|split; [rewrite Hevs, Hev; reflexivity|split; [exact M1|]]].
    + eapply pulled_more; [exact Hnext|]. rewrite Hc. apply pulled_none.
    + left. simpl. lia.
  - destruct (pull_train_spec _ Hpull) as (Hev & _ & r & Hnext).
    destruct (train_step_spec _ _ _ _ _ _ _ _ Hstep)
      as (loss & vb & Hevs & Hblock & Hc).
    destruct (step_block_measures cad loss (model (env st2)) Hblock)
      as (M1 & _).
    destruct IH as (n & evs & Hp & E0 & E1 & E2).
    exists (S n). eexists.
    split; [|split; [rewrite E0, Hevs, Hev, <- app_assoc; reflexivity|split]].
    + eapply pulled_more; [exact Hnext|]. rewrite <- Hc. exact Hp.
    + rewrite batches_app, M1, E1. lia.
    + destruct E2 as [E2 | [E2 E3]]; [left | right; split; [|exact E3]]; lia.
Qed.

End TrainingBatches.

Section TrainingBatchesTheorem.

Context {C : Collaborators}.

(** C5, as the code has it.  A run that returns has pulled its batches from
    the training loader one after the other, [n] of them, and has numbered
    them 0, ..., [n - 1]; [n] is [steps + 1] for a budget [steps >= 0] (and
    1 for a negative budget: the test [step >= FLAGS.steps] comes at the end
    of the body), unless the loader ran dry after fewer batches, and then it
    is all the loader had.  The run then saved the model once to the path
    without suffix: that save is the last event of the run and the only one
    to that path. *)
Theorem train_pulls_steps_plus_one_batches_unless_loader_runs_dry
  (FLAGS : Flags) (s : Setup) (final : TrainState) :
  train FLAGS s = Ok final ->
  exists (n : nat) (body : list Event),
    Pulled n (setup_train s) (train_datastream final) /\
    batches (events final) = Z.of_nat n /\
    train_steps (events final) = ints_from 0 n /\
    (Z.of_nat n = Z.max (steps (run_cadence FLAGS)) 0 + 1 \/
     Z.of_nat n < Z.max (steps (run_cadence FLAGS)) 0 + 1 /\
     next_batch (train_datastream final) (rng (env final)) = None) /\
    events final = body ++ [Save NoSuffix (model (env final))] /\
    final_saves body = 0.
Proof.
  intros Htrain.
  destruct (train_inv _ _ Htrain) as (arch & st & _ & Hrun & ->).
  destruct (initial_state_spec (effective_flags FLAGS) s arch) as (Hev & _ & Hc).
  destruct (Run_pulls Hrun) as (n & evs & Hp & E0 & E1 & E2).
  destruct (Run_train_steps Hrun) as (evs' & n' & E0' & E1' & E2' & _ & E4' & _).
  rewrite Hev in E0, E0'. cbn [app] in E0, E0'. subst evs evs'.
  assert (n' = n) by (apply Nat2Z.inj; congruence). subst n'.
  rewrite Hc in Hp. replace (steps _ - 0) with (steps (run_cadence FLAGS)) in E2
    by (unfold run_cadence; lia).
  exists n, (events st). cbn [save emit events env train_datastream].
  rewrite batches_app, train_steps_app, E1, E1'.
  cbn [batches train_steps]. rewrite app_nil_r.
  split; [exact Hp|]. split; [lia|]. split; [reflexivity|].
  split; [exact E2|]. split; [reflexivity | exact E4'].
Qed.

End TrainingBatchesTheorem.

(** ** The least loss *)

Section LeastLoss.

Context {C : Collaborators}.

Lemma ltb_irrefl (x : F64.float) : F64.ltb x x = false.
Proof.
  unfold F64.ltb, SFltb, SFcompare.
  destruct x as [s|s| |s m e]; try destruct s; simpl; try reflexivity;
    rewrite Z.compare_refl;
    change (Pos.compare_cont Eq m m) with (Pos.compare m m);
    rewrite Pos.compare_refl; reflexivity.
Qed.

Lemma LeastOf_kept (best v : F64.float) (prior : list F64.float) :
  LeastOf best prior -> F64.is_finite v = true -> F64.ltb v best = false ->
  LeastOf best (prior ++ [v]).
Proof.
  intros [[-> ->] | [Hin Hall]] Hv Hlt.
  - rewrite (finite_below_inf v Hv) in Hlt. discriminate.
  - right. split; [apply in_or_app; left; exact Hin|].
    apply Forall_app. split; [exact Hall | repeat constructor; exact Hlt].
Qed.

Lemma LeastOf_best (best v : F64.float) (prior : list F64.float) :
  LeastOf best prior -> F64.ltb v best = true ->
  LeastOf v (prior ++ [v]).
Proof.
  intros Hleast Hlt. right. split; [apply in_or_app; right; left; reflexivity|].
  apply Forall_app. split; [|repeat constructor; apply ltb_irrefl].
  destruct Hleast as [[-> ->] | [Hin Hall]]; [constructor|].
  eapply Forall_impl; [|exact Hall]. intros p Hp. cbv beta in Hp.
  destruct (F64.ltb p v) eqn:Hpv; [|reflexivity].
  rewrite (ltb_trans _ _ _ Hpv Hlt) in Hp. discriminate.
Qed.

Lemma block_least (every step : Z) (best best' : F64.float) (vb sv : list Event)
  (loss : F64.float) (prior : list F64.float)
  (Hb : ValidationBlock every step best vb best')
  (Hv : valid_losses sv = []) :
  LeastOf best prior ->
  Forall (fun v => F64.is_finite v = true)
         (valid_losses (TrainLoss step loss :: vb ++ sv)) ->
  LeastOf best' (prior ++ valid_losses (TrainLoss step loss :: vb ++ sv)).
Proof.
  destruct Hb as [Hd | v r1 r2 Hd Hlt | v r1 r2 m Hd Hlt];
    cbn [app valid_losses]; rewrite Hv; intros Hleast Hfin.
  - rewrite app_nil_r. exact Hleast.
  - apply Forall_inv in Hfin. apply LeastOf_kept; assumption.
  - eapply LeastOf_best; eassumption.
Qed.

Lemma Run_least (cad : Cadence) (lr : bool) (vdbl tdbl : list DblEntry)
  (step : Z) (st st' : TrainState) :
  Run cad lr vdbl tdbl step st st' ->
  exists evs,
    events st' = events st ++ evs /\
    forall prior,
      LeastOf (best_val_loss st) prior ->
      Forall (fun v => F64.is_finite v = true) (valid_losses evs) ->
      LeastOf (best_val_loss st') (prior ++ valid_losses evs).
Proof.
  intros Hrun.
  induction Hrun as [step st Hpull
                    | step st data labels st1 st2 Hpull Hstep Hge
                    | step st data labels st1 st2 st3 Hpull Hstep Hlt Hrun IH].
  - exists []. rewrite app_nil_r. split; [reflexivity|].
    intros prior H _. simpl. rewrite app_nil_r. exact H.
  - destruct (pull_train_spec _ Hpull) as (Hev & Hbest & _).
    destruct (train_step_spec _ _ _ _ _ _ _ _ Hstep) as (loss & vb & Hevs & Hblock & _).
    destruct (periodic_save_inert (due step (save_every cad)) step (model (env st2)))
      as (_ & S2 & _).
    eexists. split; [rewrite Hevs, Hev; reflexivity|].
    intros prior Hleast Hfin. rewrite Hbest in Hblock.
    eapply block_least; eassumption.
  - destruct (pull_train_spec _ Hpull) as (Hev & Hbest & _).
    destruct (train_step_spec _ _ _ _ _ _ _ _ Hstep) as (loss & vb & Hevs & Hblock & _).
    destruct (periodic_save_inert (due step (save_every cad)) step (model (env st2)))
      as (_ & S2 & _).
    destruct IH as (evs & E0 & E1).
    eexists. split; [rewrite E0, Hevs, Hev, <- app_assoc; reflexivity|].
    intros prior Hleast Hfin. rewrite Hbest in Hblock.
    rewrite valid_losses_app in Hfin |- *. apply Forall_app in Hfin.
    destruct Hfin as [Hfin1 Hfin2]. rewrite app_assoc.
    apply E1; [|exact Hfin2].
    eapply block_least; eassumption.
Qed.

End LeastLoss.

(** ** When a run raises *)

Section RunFailures.

Context {C : Collaborators}.

Variable cad : Cadence.
Variable lr : bool.
Variables vdbl tdbl : list DblEntry.







End RunFailures.

(** ** Whole runs: what every run that returns leaves behind *)

Section RunTheorems.

Context {C : Collaborators}.

Lemma initial_state_at_rest (FLAGS : Flags) (s : Setup) (arch : Arch) :
  at_rest (model (env (initial_state FLAGS s arch))).
Proof.
  unfold initial_state. destruct (construct arch) as [p q]. split; reflexivity.
Qed.

(** X6.  Whatever the training loader, a run that returns has gone through
    at most [max(steps, 0) + 1] batches, has numbered their lines in
    [train.txt] 0, 1, 2, ... without a gap, and has saved the model to the
    path without suffix exactly once. *)
Theorem train_log_is_numbered_from_zero
  (FLAGS : Flags) (s : Setup) (final : TrainState) :
  train FLAGS s = Ok final ->
  exists n,
    train_steps (events final) = ints_from 0 n /\
    batches (events final) = Z.of_nat n /\
    Z.of_nat n <= Z.max (steps (run_cadence FLAGS)) 0 + 1 /\
    final_saves (events final) = 1.
Proof.
  intros Htrain.
  destruct (train_inv _ _ Htrain) as (arch & st & _ & Hrun & ->).
  destruct (initial_state_spec (effective_flags FLAGS) s arch) as (Hev & _ & _).
  destruct (Run_train_steps Hrun) as (evs & n & E0 & E1 & E2 & E3 & E4 & _).
  rewrite Hev in E0. cbn [app] in E0.
  exists n. cbn [save emit events]. rewrite E0.
  rewrite train_steps_app, batches_app, final_saves_app, E1, E2, E4.
  cbn [train_steps batches final_saves]. rewrite app_nil_r.
  unfold run_cadence. repeat split; lia.
Qed.

(** X7.  In a run that returns, the filewise evaluations are those of its
    validations: at every step [validate] ran, one pass over the validation
    manifest and then one over the test manifest, and none elsewhere. *)
Theorem filewise_runs_follow_validations
  (FLAGS : Flags) (s : Setup) (final : TrainState) :
  train FLAGS s = Ok final ->
  filewise_steps (events final) =
  flat_map (fun step => [(ValidSplit, step); (TestSplit, step)])
           (validation_steps (events final)).
Proof.
  intros Htrain.
  destruct (train_inv _ _ Htrain) as (arch & st & _ & Hrun & ->).
  destruct (initial_state_spec (effective_flags FLAGS) s arch) as (Hev & _ & _).
  destruct (Run_train_steps Hrun) as (evs & n & E0 & _ & _ & _ & _ & E5).
  rewrite Hev in E0. cbn [app] in E0.
  cbn [save emit events]. rewrite E0.
  rewrite filewise_steps_app, validation_steps_app.
  cbn [filewise_steps validation_steps]. rewrite !app_nil_r. exact E5.
Qed.

(** X8.  Every classifier a run saves, under whatever suffix, is in train
    mode and has nothing left on its stack of stashed states. *)
Theorem saved_classifiers_are_at_rest
  (FLAGS : Flags) (s : Setup) (final : TrainState) :
  train FLAGS s = Ok final ->
  Forall at_rest (saved_models (events final)).
Proof.
  intros Htrain.
  destruct (train_inv _ _ Htrain) as (arch & st & _ & Hrun & ->).
  destruct (initial_state_spec (effective_flags FLAGS) s arch) as (Hev & _ & _).
  destruct (Run_at_rest Hrun (initial_state_at_rest _ s arch))
    as (Hrest & evs & E0 & E1).
  rewrite Hev in E0. cbn [app] in E0.
  cbn [save emit events]. rewrite E0, saved_models_app.
  apply Forall_app. split; [exact E1|].
  cbn [saved_models env save emit]. constructor; [exact Hrest | constructor].
Qed.

(** A budget below both periods: nothing is ever due. *)
Lemma quiet_run (FLAGS : Flags) (s : Setup) (final : TrainState) :
  0 < val_every (run_cadence FLAGS) ->
  0 < save_every (run_cadence FLAGS) ->
  steps (run_cadence FLAGS) < val_every (run_cadence FLAGS) ->
  steps (run_cadence FLAGS) < save_every (run_cadence FLAGS) ->
  train FLAGS s = Ok final ->
  suffixes (events final) = [NoSuffix] /\
  validation_steps (events final) = [] /\
  best_val_loss final = F64.inf.
Proof.
  unfold run_cadence. intros HV HK HSV HSK Htrain.
  destruct (train_inv _ _ Htrain) as (arch & st & _ & Hrun & ->).
  destruct (initial_state_spec (effective_flags FLAGS) s arch) as (Hev & Hb & _).
  destruct (Run_quiet Hrun) as (evs & E0 & E1 & E2 & E3).
  { intros t Ht0 HtS. unfold due.
    rewrite !Z.mod_small by lia.
    destruct (t =? 0); split; reflexivity. }
  rewrite Hev in E0. cbn [app] in E0.
  cbn [save emit events best_val_loss]. rewrite E0.
  rewrite suffixes_app, validation_steps_app, E1, E2, E3, Hb.
  repeat split.
Qed.

(** X9.  A run whose budget is below both the validation period and the
    save period writes one file, the final model: [validate] never runs, no
    checkpoint is written under [.bestval] or [.step<N>], and
    [best_val_loss] ends at [inf]. *)
Theorem short_run_saves_only_the_final_model
  (FLAGS : Flags) (s : Setup) (final : TrainState) :
  0 < val_every (run_cadence FLAGS) ->
  0 < save_every (run_cadence FLAGS) ->
  steps (run_cadence FLAGS) < val_every (run_cadence FLAGS) ->
  steps (run_cadence FLAGS) < save_every (run_cadence FLAGS) ->
  train FLAGS s = Ok final ->
  suffixes (events final) = [NoSuffix] /\
  validation_steps (events final) = [] /\
  best_val_loss final = F64.inf.
Proof. apply quiet_run. Qed.

(** X10.  With [val_every] and [save_every] left unset (or given as 0), the
    defaults put both periods at [max(100, steps // 50)]: a run of fewer than
    100 steps never validates and writes the final model only. *)
Theorem default_cadence_is_silent_below_100_steps
  (FLAGS : Flags) (s : Setup) (final : TrainState) :
  not_set (FLAGS_val_every (effective_flags FLAGS)) = true ->
  not_set (FLAGS_save_every (effective_flags FLAGS)) = true ->
  FLAGS_steps (effective_flags FLAGS) < 100 ->
  train FLAGS s = Ok final ->
  val_every (run_cadence FLAGS) = 100 /\
  save_every (run_cadence FLAGS) = 100 /\
  suffixes (events final) = [NoSuffix] /\
  validation_steps (events final) = [] /\
  best_val_loss final = F64.inf.
Proof.
  intros Hv Hs HS Htrain.
  assert (HV : val_every (run_cadence FLAGS) = 100).
  { unfold run_cadence, cadence, from_flag. cbn [val_every]. rewrite Hv.
    assert (FLAGS_steps (effective_flags FLAGS) / 50 < 100)
      by (apply Z.div_lt_upper_bound; lia).
    lia. }
  assert (HK : save_every (run_cadence FLAGS) = 100).
  { unfold run_cadence, cadence in *. cbn [val_every save_every] in *.
    unfold from_flag at 1. rewrite Hs. exact HV. }
  split; [exact HV|]. split; [exact HK|].
  apply (@quiet_run FLAGS s final); try exact Htrain; rewrite ?HV, ?HK;
    unfold run_cadence, cadence; cbn [steps]; lia.
Qed.

(** X11.  In a run whose validation losses are all numbers proper,
    [best_val_loss] ends as the least of them: one of the losses observed,
    that none of them is below; [inf] when [validate] never ran. *)
Theorem best_val_loss_is_least_validation_loss
  (FLAGS : Flags) (s : Setup) (final : TrainState) :
  train FLAGS s = Ok final ->
  Forall (fun v => F64.is_finite v = true) (valid_losses (events final)) ->
  LeastOf (best_val_loss final) (valid_losses (events final)).
Proof.
  intros Htrain Hfin.
  destruct (train_inv _ _ Htrain) as (arch & st & _ & Hrun & ->).
  destruct (initial_state_spec (effective_flags FLAGS) s arch) as (Hev & Hb & _).
  destruct (Run_least Hrun) as (evs & E0 & E1).
  rewrite Hev in E0. cbn [app] in E0.
  cbn [save emit events best_val_loss] in Hfin |- *. rewrite E0 in Hfin |- *.
  rewrite valid_losses_app in Hfin |- *. cbn [valid_losses] in Hfin |- *.
  rewrite app_nil_r in Hfin |- *.
  apply (E1 []); [|exact Hfin].
  rewrite Hb. left. split; reflexivity.
Qed.



End RunTheorems.

(** ** The scenario, further *)

Lemma scenario_run_four :
  @train Scenario.collaborators Scenario.flags_A Scenario.setup_four =
  Ok Scenario.final_four.
Proof. reflexivity. Qed.

Lemma scenario_run_short :
  @train Scenario.collaborators Scenario.flags_short Scenario.setup =
  Ok Scenario.final_short.
Proof. reflexivity. Qed.

(** C5, steps=10 with a training loader of four batches: the run returns
    after four batches, not eleven, and saves the final model; and
    steps=-3: the run goes through one batch. *)
Lemma scenario_loader_runs_dry_after_four_batches :
  @train Scenario.collaborators Scenario.flags_A Scenario.setup_four =
    Ok Scenario.final_four /\
  steps (@run_cadence Scenario.collaborators Scenario.flags_A) = 10 /\
  batches (events Scenario.final_four) = 4 /\
  train_steps (events Scenario.final_four) = [0; 1; 2; 3] /\
  train_datastream Scenario.final_four = Scenario.mkLoader 4 (Some 0%nat) /\
  final_saves (events Scenario.final_four) = 1 /\
  @train Scenario.collaborators Scenario.flags_negative Scenario.setup =
    Ok Scenario.final_negative /\
  steps (@run_cadence Scenario.collaborators Scenario.flags_negative) = -3 /\
  batches (events Scenario.final_negative) = 1 /\
  final_saves (events Scenario.final_negative) = 1.
Proof. repeat split. Qed.

Lemma train_pulls_witness :
  exists (n : nat) (body : list Event),
    Pulled n (setup_train Scenario.setup_four)
      (train_datastream Scenario.final_four) /\
    batches (events Scenario.final_four) = Z.of_nat n /\
    train_steps (events Scenario.final_four) = ints_from 0 n /\
    (Z.of_nat n =
       Z.max (steps (@run_cadence Scenario.collaborators Scenario.flags_A)) 0 + 1 \/
     Z.of_nat n <
       Z.max (steps (@run_cadence Scenario.collaborators Scenario.flags_A)) 0 + 1 /\
     next_batch (train_datastream Scenario.final_four)
       (rng (env Scenario.final_four)) = None) /\
    events Scenario.final_four =
      body ++ [Save NoSuffix (model (env Scenario.final_four))] /\
    final_saves body = 0.
Proof.
  apply (@train_pulls_steps_plus_one_batches_unless_loader_runs_dry
           Scenario.collaborators Scenario.flags_A Scenario.setup_four
           Scenario.final_four).
  exact scenario_run_four.
Defined.

Lemma periodic_events_leave_training_state_witness :
  cpc (env Scenario.after_validated_step) =
    cpc (env Scenario.after_plain_step) /\
  sequential (model (env Scenario.after_validated_step)) =
    sequential (model (env Scenario.after_plain_step)) /\
  params (model (env Scenario.after_validated_step)) =
    params (model (env Scenario.after_plain_step)) /\
  optimizer Scenario.after_validated_step =
    optimizer Scenario.after_plain_step.
Proof.
  apply (@periodic_events_leave_training_state Scenario.collaborators
           Scenario.cadence_5 Scenario.cadence_7 false
           [Scenario.file_a] [Scenario.file_a] [Scenario.file_short] [] 5
           (Scenario.frames 0 8)
           (map Scenario.label_of (Scenario.frames 0 8)) Scenario.state0);
    reflexivity.
Defined.

Lemma step_saves_witness :
  exists evs,
    events Scenario.after_validated_step = events Scenario.state0 ++ evs /\
    Forall (fun m => m = model (env Scenario.after_validated_step))
           (saved_models evs).
Proof.
  apply (@step_saves_the_model_it_continues_with Scenario.collaborators
           Scenario.cadence_5 false [Scenario.file_a] [Scenario.file_a] 5
           (Scenario.frames 0 8)
           (map Scenario.label_of (Scenario.frames 0 8)) Scenario.state0).
  reflexivity.
Defined.

Lemma train_log_witness :
  exists n,
    train_steps (events Scenario.final_four) = ints_from 0 n /\
    batches (events Scenario.final_four) = Z.of_nat n /\
    Z.of_nat n <= Z.max 10 0 + 1 /\
    final_saves (events Scenario.final_four) = 1.
Proof.
  apply (@train_log_is_numbered_from_zero Scenario.collaborators
           Scenario.flags_A Scenario.setup_four Scenario.final_four).
  exact scenario_run_four.
Defined.

Lemma filewise_runs_witness :
  filewise_steps (events Scenario.final_A) =
  [(ValidSplit, 5); (TestSplit, 5); (ValidSplit, 10); (TestSplit, 10)].
Proof.
  apply (@filewise_runs_follow_validations Scenario.collaborators
           Scenario.flags_A Scenario.setup Scenario.final_A).
  exact scenario_run_A.
Defined.

Lemma saved_classifiers_witness :
  List.length (saved_models (events Scenario.final_A)) = 4%nat /\
  Forall at_rest (saved_models (events Scenario.final_A)).
Proof.
  split; [reflexivity|].
  apply (@saved_classifiers_are_at_rest Scenario.collaborators
           Scenario.flags_A Scenario.setup Scenario.final_A).
  exact scenario_run_A.
Defined.

Lemma short_run_witness :
  suffixes (events Scenario.final_short) = [NoSuffix] /\
  validation_steps (events Scenario.final_short) = [] /\
  best_val_loss Scenario.final_short = F64.inf.
Proof.
  apply (@short_run_saves_only_the_final_model Scenario.collaborators
           Scenario.flags_short Scenario.setup Scenario.final_short).
  - reflexivity.
  - reflexivity.
  - reflexivity.
  - reflexivity.
  - exact scenario_run_short.
Defined.

Lemma default_cadence_witness :
  val_every (@run_cadence Scenario.collaborators Scenario.flags_short) = 100 /\
  save_every (@run_cadence Scenario.collaborators Scenario.flags_short) = 100 /\
  suffixes (events Scenario.final_short) = [NoSuffix] /\
  validation_steps (events Scenario.final_short) = [] /\
  best_val_loss Scenario.final_short = F64.inf.
Proof.
  apply (@default_cadence_is_silent_below_100_steps Scenario.collaborators
           Scenario.flags_short Scenario.setup Scenario.final_short).
  - reflexivity.
  - reflexivity.
  - reflexivity.
  - exact scenario_run_short.
Defined.

Lemma best_val_loss_witness :
  best_val_loss Scenario.final_A = S754_finite false 7005599420354104 (-53) /\
  LeastOf (best_val_loss Scenario.final_A)
          (valid_losses (events Scenario.final_A)).
Proof.
  split; [reflexivity|].
  apply (@best_val_loss_is_least_validation_loss Scenario.collaborators
           Scenario.flags_A Scenario.setup Scenario.final_A).
  - exact scenario_run_A.
  - cbv. repeat constructor.
Defined.



(** ** Manifest entries without windows *)

Section EmptyEntries.

Context {C : Collaborators}.

(** X14.  The entries of a manifest whose files yield no window count for
    nothing: with them struck out, [validate_filewise] returns the same
    loss, scores and figure, leaves the models in the same state, and raises
    in the same cases. *)
Theorem validate_filewise_ignores_empty_entries (dbl : list DblEntry) (e : Env) :
  validate_filewise (filter (fun d => negb (yields_nothing d)) dbl) e =
  validate_filewise dbl e.
Proof.
  unfold validate_filewise.
  rewrite (@validate_filewise_windows C
             (filter (fun d => negb (yields_nothing d)) dbl) dbl e
             (windows_filter dbl)).
  reflexivity.
Qed.

End EmptyEntries.

(** ** The calls of a run, counted *)

Section CallCounts.

Context {C : Collaborators}.

Lemma occurrences_app (c : Call) (a b : list Call) :
  occurrences c (a ++ b) = occurrences c a + occurrences c b.
Proof.
  induction a as [|x a IH]; cbn [occurrences app]; [reflexivity|].
  rewrite IH. lia.
Qed.

Lemma occurrences_forwards (c : Call) (n : nat) :
  occurrences c (forwards n) =
  match c with
  | CpcForward | ModelForward => Z.of_nat n
  | _ => 0
  end.
Proof.
  induction n as [|n IH].
  - destruct c; reflexivity.
  - change (forwards (S n)) with ([CpcForward; ModelForward] ++ forwards n).
    rewrite occurrences_app, IH. destruct c; cbn [occurrences same_call]; lia.
Qed.

(** The calls of one evaluation: one eval, one train, a stash and a pop on
    each model, and as many passes through the one as through the other. *)
Lemma handed_back_calls (c : Call) (e : Env) (r : Rng) (n : nat) :
  occurrences c (calls (handed_back e r n)) =
  occurrences c (calls e) +
  match c with
  | CpcForward | ModelForward => Z.of_nat n
  | _ => 1
  end.
Proof.
  unfold handed_back. cbn [calls].
  rewrite !occurrences_app, occurrences_forwards.
  destruct c; cbn [occurrences same_call]; lia.
Qed.

Variable cad : Cadence.
Variable lr : bool.
Variables vdbl tdbl : list DblEntry.

Lemma validation_event_calls (step : Z) (st st' : TrainState) :
  validation_event cad vdbl tdbl step st = Ok st' ->
  exists n,
    0 <= n /\
    forall c,
      occurrences c (calls (env st')) =
      occurrences c (calls (env st)) +
      match c with
      | CpcForward | ModelForward => n
      | _ => 3
      end.
Proof.
  unfold validation_event.
  pose proof (validate_spec (valid_steps cad) (valid_datastream st) (env st)) as Hv.
  cbv zeta in Hv. rewrite Hv. clear Hv. cbn [bind env emit with_env events].
  match goal with
  | |- context [handed_back (env st) (rng (env st)) ?k] => set (n0 := k)
  end.
  destruct (validate_filewise vdbl _) as [[run1 e1]|err] eqn:H1; [|discriminate].
  apply validate_filewise_ok in H1. destruct H1 as (r1 & ->).
  cbn [bind env emit with_env events].
  destruct (validate_filewise tdbl _) as [[run2 e2]|err] eqn:H2; [|discriminate].
  apply validate_filewise_ok in H2. destruct H2 as (r2 & ->).
  cbn [bind env emit with_env events best_val_loss].
  exists (Z.of_nat n0 + Z.of_nat (List.length (windows vdbl))
          + Z.of_nat (List.length (windows tdbl))).
  split; [lia|]. intros c.
  destruct (F64.ltb _ _); injection H as <-;
    cbn [env save emit with_env];
    rewrite !handed_back_calls; destruct c; lia.
Qed.

Lemma train_step_calls (step : Z) (data : Data) (labels : Labels)
  (st st' : TrainState) :
  train_step cad lr vdbl tdbl step data labels st = Ok st' ->
  exists n,
    0 <= n /\
    forall c,
      occurrences c (calls (env st')) =
      occurrences c (calls (env st)) +
      match c with
      | CpcForward => 1 + n
      | ModelForward => 2 + n
      | _ => if due step (val_every cad) then 3 else 0
      end.
Proof.
  unfold train_step.
  destruct (cpc_call_spec data (env st)) as [Hc1 _].
  destruct (model_call_spec (fst (cpc_call data (env st)))
              (snd (cpc_call data (env st)))) as [Hc2 _].
  destruct (cpc_call data (env st)) as [features e1]. cbn [fst snd] in *.
  destruct (model_call_spec features (snd (model_call features e1)))
    as [Hc3 _].
  destruct (model_call features e1) as [pred e2]. cbn [fst snd] in *.
  destruct (model_call features e2) as [output e3]. cbn [fst snd] in *.
  destruct (optimizer_step _ _ _ _ _) as [opt p].
  set (st1 := emit _ _).
  assert (Hcalls : forall c,
            occurrences c (calls (env st1)) =
            occurrences c (calls (env st)) +
            match c with CpcForward => 1 | ModelForward => 2 | _ => 0 end).
  { intros c. unfold st1. cbn [emit env with_model calls].
    rewrite Hc3, Hc2, Hc1, !occurrences_app.
    destruct c; cbn [occurrences same_call]; lia. }
  clearbody st1.
  destruct (due step (val_every cad)).
  - destruct (validation_event cad vdbl tdbl step st1) as [st2|err] eqn:Hve;
      [|discriminate].
    destruct (validation_event_calls _ _ Hve) as (n & Hn & Hv).
    cbn [bind]. exists n. split; [exact Hn|]. intros c.
    destruct (due step (save_every cad)); injection H as <-;
      cbn [save emit env]; rewrite Hv, Hcalls; destruct c; lia.
  - cbn [bind]. exists 0. split; [lia|]. intros c.
    destruct (due step (save_every cad)); injection H as <-;
      cbn [save emit env]; rewrite Hcalls; destruct c; lia.
Qed.

Lemma pull_train_calls (st st1 : TrainState) (data : Data) (labels : Labels) :
  pull_train st = Some (data, labels, st1) ->
  calls (env st1) = calls (env st).
Proof.
  unfold pull_train.
  destruct (next_batch _ _) as [[[[d l] c] r]|]; [|discriminate].
  intros H. inversion H; subst. reflexivity.
Qed.

Lemma Run_calls (step : Z) (st st' : TrainState) :
  Run cad lr vdbl tdbl step st st' ->
  exists evs n,
    events st' = events st ++ evs /\
    0 <= n /\
    forall c,
      occurrences c (calls (env st')) =
      occurrences c (calls (env st)) +
      match c with
      | CpcForward => batches evs + n
      | ModelForward => 2 * batches evs + n
      | _ => 3 * Z.of_nat (List.length (validation_steps evs))
      end.
Proof.
  intros Hrun.
  induction Hrun as [step st Hpull
                    | step st data labels st1 st2 Hpull Hstep Hge
                    | step st data labels st1 st2 st3 Hpull Hstep Hlt Hrun IH].
  - exists [], 0. rewrite app_nil_r. split; [reflexivity|]. split; [lia|].
    intros c. destruct c; simpl; lia.
  - destruct (pull_train_spec _ Hpull) as (Hev & _ & _).
    pose proof (pull_train_calls _ Hpull) as Hcl.
    destruct (train_step_spec _ _ _ _ _ _ _ _ Hstep) as (loss & vb & Hevs & Hblock & _).
    destruct (step_block_measures cad loss (model (env st2)) Hblock)
      as (M1 & _ & _ & M4 & _).
    destruct (train_step_calls _ _ _ _ Hstep) as (n & Hn & Hc).
    eexists _, n. split; [rewrite Hevs, Hev; reflexivity|]. split; [exact Hn|].
    intros c. rewrite Hc, Hcl, M1, M4.
    destruct c, (due step (val_every cad)); simpl; lia.
  - destruct (pull_train_spec _ Hpull) as (Hev & _ & _).
    pose proof (pull_train_calls _ Hpull) as Hcl.
    destruct (train_step_spec _ _ _ _ _ _ _ _ Hstep) as (loss & vb & Hevs & Hblock & _).
    destruct (step_block_measures cad loss (model (env st2)) Hblock)
      as (M1 & _ & _ & M4 & _).
    destruct (train_step_calls _ _ _ _ Hstep) as (n & Hn & Hc).
    destruct IH as (evs & n' & E0 & Hn' & E1).
    eexists _, (n + n'). split; [rewrite E0, Hevs, Hev, <- app_assoc; reflexivity|].
    split; [lia|].
    intros c. rewrite E1, Hc, Hcl, batches_app, validation_steps_app,
      length_app, M1, M4.
    destruct c, (due step (val_every cad)); simpl List.length; lia.
Qed.

End CallCounts.

Section CallTheorems.

Context {C : Collaborators}.

(** X15.  In a run that returns, the classifier has made one forward pass
    per batch more than the feature extractor: every training batch goes
    through the classifier twice; and each model was stashed, and popped,
    three times per validation step, once for the streamed validation and
    once for each filewise pass. *)
Theorem classifier_runs_twice_per_training_batch
  (FLAGS : Flags) (s : Setup) (final : TrainState) :
  train FLAGS s = Ok final ->
  occurrences ModelForward (calls (env final)) =
    occurrences CpcForward (calls (env final)) + batches (events final) /\
  batches (events final) <= occurrences CpcForward (calls (env final)) /\
  Forall (fun c => occurrences c (calls (env final)) =
                   3 * Z.of_nat (List.length (validation_steps (events final))))
         [CpcStash; CpcPop; ModelStash; ModelPop; ModelEval; ModelTrain].
Proof.
  intros Htrain.
  destruct (train_inv _ _ Htrain) as (arch & st & _ & Hrun & ->).
  destruct (initial_state_spec (effective_flags FLAGS) s arch) as (Hev & _ & _).
  assert (Hcalls : calls (env (initial_state (effective_flags FLAGS) s arch)) = []).
  { unfold initial_state. destruct (construct arch). reflexivity. }
  destruct (Run_calls Hrun) as (evs & n & E0 & Hn & E1).
  rewrite Hev in E0. cbn [app] in E0.
  cbn [save emit events env]. rewrite E0, batches_app, validation_steps_app.
  cbn [batches validation_steps]. rewrite app_nil_r.
  split; [|split].
  - rewrite !E1, Hcalls. cbn [occurrences]. lia.
  - rewrite E1, Hcalls. cbn [occurrences].
    assert (0 <= batches evs) by (clear; induction evs as [|[] evs IH];
                                  cbn [batches]; lia).
    lia.
  - repeat constructor; rewrite E1, Hcalls; cbn [occurrences]; lia.
Qed.

End CallTheorems.

Lemma classifier_runs_twice_witness :
  occurrences ModelForward (calls (env Scenario.final_A)) = 36 /\
  occurrences CpcForward (calls (env Scenario.final_A)) = 25 /\
  occurrences ModelForward (calls (env Scenario.final_A)) =
    occurrences CpcForward (calls (env Scenario.final_A)) +
    batches (events Scenario.final_A).
Proof.
  split; [reflexivity|]. split; [reflexivity|].
  apply (@classifier_runs_twice_per_training_batch Scenario.collaborators
           Scenario.flags_A Scenario.setup Scenario.final_A).
  exact scenario_run_A.
Defined.

(** ** The mode an evaluation is called in *)

Section EntryMode.

Context {C : Collaborators}.

(** X16.  [validate] and [validate_filewise] do not look at the mode the
    classifier is in when they are called, and do not put it back: they
    switch to eval mode before the first forward pass and to train mode at
    the end, so that a classifier handed over in eval mode gives the same
    result, or the same exception, as one in train mode, and comes back in
    train mode; when [validate_filewise] raises it leaves the classifier in
    eval mode. *)
Theorem evaluation_ignores_entry_mode
  (md : Mode) (vs : Z) (ds : Cursor) (dbl : list DblEntry) (e : Env) :
  validate vs ds (with_model (with_mode md (model e)) e) = validate vs ds e /\
  validate_filewise dbl (with_model (with_mode md (model e)) e) =
    validate_filewise dbl e /\
  match validate vs ds (with_model (with_mode EvalMode (model e)) e) with
  | Ok (_, _, e') => mode (model e') = TrainMode
  | Raise _ => False
  end /\
  match validate_filewise dbl (with_model (with_mode md (model e)) e) with
  | Ok (_, e') => mode (model e') = TrainMode
  | Raise _ =>
      mode (model (snd (validate_filewise_outcome dbl
                          (with_model (with_mode md (model e)) e)))) =
      EvalMode
  end.
Proof.
  split; [|split; [|split]].
  - pose proof (validate_spec vs ds (with_model (with_mode md (model e)) e)) as H1.
    pose proof (validate_spec vs ds e) as H2. cbv zeta in H1, H2.
    rewrite H1, H2. reflexivity.
  - reflexivity.
  - pose proof (validate_spec vs ds (with_model (with_mode EvalMode (model e)) e))
      as H. cbv zeta in H. rewrite H. reflexivity.
  - pose proof (validate_filewise_outcome_frame dbl
                  (with_model (with_mode md (model e)) e)) as H.
    cbv zeta in H.
    destruct (fst (validate_filewise_outcome dbl _)) as [run|err].
    + destruct H as (-> & _ & _ & _ & _ & H). exact H.
    + destruct H as (-> & passes & _ & _ & _ & _ & _ & H). exact H.
Qed.

End EntryMode.
